(** * server.js: the weather backend

    A shallow embedding of [server.js], the Express backend of the weather
    site.  The file has three parts: the configuration read from the process
    environment, the [GET /weather] handler that reads one S3 object and
    returns it as JSON, and the [POST /subscribe] handler that writes one S3
    object per subscriber.

    The HTTP front door ([cors], [express.json], [app.listen]) is the
    framework's: a handler is modelled from the point where it receives
    [req.body] to the point where it answers or throws.

    JavaScript values are an inductive type, strings are sequences of UTF-16
    code units, numbers are binary64 floats.  The S3 client, the console and
    the promise plumbing are an explicit state-and-exception monad over a
    [World]; [Buffer] coding and [JSON.parse] are ECMAScript/Node built-ins and
    are taken through the [Runtime] interface. *)

From Stdlib Require Import Floats Ascii String.
From stdpp Require Import gmap list strings.

(** ** JavaScript strings *)

(** A JavaScript string is a sequence of UTF-16 code units (numbers below
    [2^16]).  Regular expressions without the [u] flag, [includes] and
    [replace] all work on code units. *)
Abbreviation jsstring := (list N).

(** The code units of an ASCII literal of the source. *)
Definition u16 (s : string) : jsstring :=
  N_of_ascii <$> list_ascii_of_string s.
Arguments u16 s%_string : simpl never.

(** The code unit of an ASCII character. *)
Definition code (a : ascii) : N := N_of_ascii a.
Arguments code a%_char : simpl never.

(** [String.prototype.startsWith] at position 0. *)
Fixpoint String_startsWith (s search : jsstring) : bool :=
  match search, s with
  | [], _ => true
  | _ :: _, [] => false
  | c :: search', d :: s' => (c =? d)%N && String_startsWith s' search'
  end.

(** [String.prototype.includes(search)]: [search] occurs in [s] as a
    contiguous run of code units. *)
Fixpoint String_includes (s search : jsstring) : bool :=
  String_startsWith s search
  || match s with
     | [] => false
     | _ :: s' => String_includes s' search
     end.

Arguments String_includes : simpl never.

(** ** Regular expressions: one character class, global flag *)

(** The members of a character class: [a-z] is [ClassRange "a" "z"], a
    single character such as [_] is [ClassAtom "_"]. *)
Inductive ClassRanges :=
| ClassRange (lo hi : ascii)
| ClassAtom (c : ascii).

(** [[...]] or, when [negated], [[^...]]. *)
Record CharacterClass := {
  negated : bool;
  ranges : list ClassRanges;
}.

Definition ClassRanges_has (c : N) (r : ClassRanges) : bool :=
  match r with
  | ClassRange lo hi => (N_of_ascii lo <=? c)%N && (c <=? N_of_ascii hi)%N
  | ClassAtom a => (c =? N_of_ascii a)%N
  end.

(** Whether the class matches the code unit [c]. *)
Definition CharacterClass_matches (cls : CharacterClass) (c : N) : bool :=
  xorb (negated cls) (existsb (ClassRanges_has c) (ranges cls)).

(** [s.replace(/cls/g, replacement)]: the string is scanned from the left;
    every code unit the class matches is replaced, the others are copied. *)
Fixpoint String_replace (s : jsstring) (cls : CharacterClass)
    (replacement : jsstring) : jsstring :=
  match s with
  | [] => []
  | c :: s' =>
      if CharacterClass_matches cls c
      then replacement ++ String_replace s' cls replacement
      else c :: String_replace s' cls replacement
  end.

(** The pattern of line 109, [/[^a-zA-Z0-9-_.@]/g].  The [-] after [0-9]
    cannot start a range, so it is a literal hyphen. *)
Definition unsafe_character : CharacterClass := {|
  negated := true;
  ranges := [ClassRange "a" "z"; ClassRange "A" "Z"; ClassRange "0" "9";
             ClassAtom "-"; ClassAtom "_"; ClassAtom "."; ClassAtom "@"];
|}.

(** [const sanitizedEmail = email.replace(/[^a-zA-Z0-9-_.@]/g, '')] for a
    string [email]. *)
Definition sanitizedEmail (email : jsstring) : jsstring :=
  String_replace email unsafe_character [].

(** The specification's wording of the same function: the characters of
    [[A-Za-z0-9\-_.@]] are retained, the others deleted. *)
Definition retained (c : N) : bool :=
  ((65 <=? c) && (c <=? 90) || (97 <=? c) && (c <=? 122)
   || (48 <=? c) && (c <=? 57)
   || (c =? 45) || (c =? 95) || (c =? 46) || (c =? 64))%N.

Definition sanitize_spec (e : jsstring) : jsstring :=
  filter (λ c, Is_true (retained c)) e.

(** ** JavaScript values *)

(** The values [express.json()] can put in [req.body] and [JSON.parse] can
    return, with [undefined] for a missing property.  An object lists its
    own properties in insertion order, each key once. *)
#[warnings="-register-all"] Inductive JSValue :=
| JUndefined
| JNull
| JBool (b : bool)
| JNumber (x : float)
| JString (s : jsstring)
| JArray (elements : list JSValue)
| JObject (properties : list (jsstring * JSValue)).

(** An exception value: [error.name] and [error.message]. *)
Record JSError := {
  name : jsstring;
  message : jsstring;
}.

Definition TypeError (msg : string) : JSError :=
  {| name := u16 "TypeError"; message := u16 msg |}.
Arguments TypeError msg%_string.

(** [ToBoolean]: [undefined], [null], [false], [0], [-0], [NaN] and [''] are
    falsy, everything else (every array and object included) is truthy. *)
Definition ToBoolean (v : JSValue) : bool :=
  match v with
  | JUndefined | JNull => false
  | JBool b => b
  | JNumber x => negb (PrimFloat.eqb x 0 || PrimFloat.is_nan x)
  | JString s => negb (bool_decide (s = []))
  | JArray _ | JObject _ => true
  end.

(** [a || b]. *)
Definition js_or (a b : JSValue) : JSValue :=
  if ToBoolean a then a else b.

(** [Array.prototype.includes] for a string argument: [SameValueZero]
    equates a string only with a string of the same code units. *)
Definition Array_includes (elements : list JSValue) (search : jsstring) : bool :=
  existsb (λ v, match v with
                | JString s => bool_decide (s = search)
                | _ => false
                end) elements.

(** The own property [key] of an object's property list. *)
Fixpoint own_property (properties : list (jsstring * JSValue)) (key : jsstring)
    : JSValue :=
  match properties with
  | [] => JUndefined
  | (k, v) :: rest => if bool_decide (k = key) then v else own_property rest key
  end.

(** ** Configuration (lines 12-25) *)

(** [process.env] after [dotenv] has run: variable names to string values. *)
Abbreviation Env := (gmap jsstring jsstring).

(** [process.env.X]: the string, or [undefined] when the variable is unset. *)
Definition process_env (env : Env) (var : string) : JSValue :=
  match env !! u16 var with
  | Some v => JString v
  | None => JUndefined
  end.
Arguments process_env env var%_string.

(** [process.env.X || 'default'] where both sides are strings: the result is
    again a string. *)
Definition env_or (env : Env) (var : string) (default : string) : jsstring :=
  match env !! u16 var with
  | Some (c :: v) => c :: v
  | Some [] | None => u16 default
  end.
Arguments env_or env (var default)%_string.

Definition PORT (env : Env) : JSValue :=
  js_or (process_env env "PORT") (JNumber 3000).

Definition S3_BUCKET_NAME (env : Env) : jsstring :=
  env_or env "S3_BUCKET_NAME" "daily-weather-output-mscac".

Definition S3_REGION (env : Env) : jsstring :=
  env_or env "AWS_REGION" "us-east-2".

Definition WEATHER_FILE_KEY : jsstring := u16 "daily-data/prediction.json".

Definition SUBSCRIPTIONS_PATH : jsstring := u16 "subscribers/".

Arguments WEATHER_FILE_KEY : simpl never.
Arguments SUBSCRIPTIONS_PATH : simpl never.
Arguments S3_BUCKET_NAME : simpl never.

(** ** Buffers and the built-ins of the runtime *)

Abbreviation Buffer := (list Byte.byte).

(** The Node and ECMAScript built-ins the server calls.  They are not part of
    the repository; the handlers are verified for every implementation. *)
Class Runtime := {
  (** [Buffer.from(s, 'utf8')]: how the S3 client serialises a string body. *)
  Buffer_from : jsstring → Buffer;
  (** [buffer.toString('utf-8')]. *)
  Buffer_toString : Buffer → jsstring;
  (** [JSON.parse(text)]: the parsed value, or the message of the
      [SyntaxError] it throws. *)
  JSON_parse : jsstring → JSValue + jsstring;
}.

(** ** The world outside the process: S3 and the console *)

(** A stored object: the content, as the chunks in which a download delivers
    it, and its content type. *)
Record S3Object := {
  chunks : list Buffer;
  content_type : option jsstring;
}.

(** [Buffer.concat(chunks)]. *)
Definition Buffer_concat (chunks : list Buffer) : Buffer := concat chunks.

Definition content (o : S3Object) : Buffer := Buffer_concat (chunks o).

(** The parameter object of a command: [{ Bucket, Key }] for a read,
    [{ Bucket, Key, Body, ContentType }] for a write. *)
Record Params := {
  Bucket : jsstring;
  Key : jsstring;
  Body : JSValue;
  ContentType : option jsstring;
}.

Inductive Command :=
| GetObjectCommand (input : Params)
| PutObjectCommand (input : Params).

Inductive LogLine :=
| Log (line : jsstring)
| LogError (label : jsstring) (error : JSError).

(** The objects of all buckets by (bucket, key), the faults the store is
    suffering (an [outage] rejects every command, a [stream_fault] breaks a
    download after its chunks), the commands sent so far and the console
    output, both newest first. *)
Record World := {
  objects : gmap (jsstring * jsstring) S3Object;
  outage : option JSError;
  stream_fault : option JSError;
  sent : list Command;
  console : list LogLine;
}.

(** ** Promises: state, exceptions and promises that never settle *)

Inductive Completion (A : Type) :=
| Return (a : A)
| Throw (e : JSError)
| Pending.
Arguments Return {A} a.
Arguments Throw {A} e.
Arguments Pending {A}.

Definition Async (A : Type) : Type := World → Completion A * World.

#[global] Instance Async_ret : MRet Async := λ A a w, (Return a, w).

(** [await m] followed by the rest of the function. *)
#[global] Instance Async_bind : MBind Async := λ A B f m w,
  match m w with
  | (Return a, w') => f a w'
  | (Throw e, w') => (Throw e, w')
  | (Pending, w') => (Pending, w')
  end.

Definition throw {A} (e : JSError) : Async A := λ w, (Throw e, w).

(** [try { body } catch (error) { handler }]. *)
Definition try_catch {A} (body : Async A) (handler : JSError → Async A)
    : Async A := λ w,
  match body w with
  | (Throw e, w') => handler e w'
  | settled => settled
  end.

(** The world after one more line on the console. *)
Definition logged (line : LogLine) (w : World) : World :=
  {| objects := objects w; outage := outage w;
     stream_fault := stream_fault w; sent := sent w;
     console := line :: console w |}.

(** The world after one more command has gone to the store. *)
Definition recorded (command : Command) (w : World) : World :=
  {| objects := objects w; outage := outage w;
     stream_fault := stream_fault w; sent := command :: sent w;
     console := console w |}.

(** The world after object [o] has been written at [(bucket, key)]. *)
Definition stored (bucket key : jsstring) (o : S3Object) (w : World) : World :=
  {| objects := <[(bucket, key) := o]> (objects w); outage := outage w;
     stream_fault := stream_fault w; sent := sent w;
     console := console w |}.

Definition console_log (line : jsstring) : Async () := λ w,
  (Return (), logged (Log line) w).

Definition console_error (label : string) (error : JSError) : Async () := λ w,
  (Return (), logged (LogError (u16 label) error) w).
Arguments console_error label%_string error.

(** ** The S3 client *)

Inductive StreamEvent :=
| data (chunk : Buffer)
| error (e : JSError)
| end_.

(** A readable stream, as the events it will emit. *)
Abbreviation Readable := (list StreamEvent).

(** The response of [send]: [Body] is the download stream of a read and
    [undefined] for a write. *)
Record Output := { response_Body : option Readable }.

Record S3Client := { region : jsstring }.

Definition s3Client (env : Env) : S3Client := {| region := S3_REGION env |}.

Definition NoSuchKey : JSError :=
  {| name := u16 "NoSuchKey"; message := u16 "The specified key does not exist." |}.

(** The download of an object: its chunks, then ['end'], or ['error'] when
    the stream breaks.  It always closes; a download that stalls is not one
    of the states of this model. *)
Definition download (w : World) (o : S3Object) : Readable :=
  (data <$> chunks o)
  ++ [match stream_fault w with Some e => error e | None => end_ end].

Section Server.
Context `{Runtime}.

(** The bytes the client uploads for a [Body]: a string goes out as UTF-8
    and a missing body as no bytes; no other JSON value is a body. *)
Definition upload (body : JSValue) : option (list Buffer) :=
  match body with
  | JString s => Some [Buffer_from s]
  | JUndefined => Some []
  | _ => None
  end.

(** [s3Client.send(command)]: the command is recorded, then fails during an
    outage; a read of a missing key fails with [NoSuchKey], a read of a
    stored object returns its download, a write replaces the object.  The
    store of this model always replies: a call that never settles, on which
    a request would hang for want of a timeout, is not one of its states. *)
Definition send (client : S3Client) (command : Command) : Async Output := λ w,
  let w := recorded command w in
  match outage w with
  | Some e => (Throw e, w)
  | None =>
      match command with
      | GetObjectCommand p =>
          match objects w !! (Bucket p, Key p) with
          | Some o => (Return {| response_Body := Some (download w o) |}, w)
          | None => (Throw NoSuchKey, w)
          end
      | PutObjectCommand p =>
          match upload (Body p) with
          | Some bytes =>
              (Return {| response_Body := None |},
               stored (Bucket p) (Key p)
                 {| chunks := bytes; content_type := ContentType p |} w)
          | None =>
              (Throw (TypeError "The body must be of type string or an instance of Buffer"), w)
          end
      end
  end.

(** ** Helper function (lines 47-54) *)

(** The promise of [streamToString] while the stream emits its events:
    ['data'] pushes the chunk, ['error'] rejects, ['end'] resolves with the
    concatenated chunks decoded as UTF-8.  A stream that emits neither
    ['end'] nor ['error'] leaves the promise pending. *)
Fixpoint streamToString_events (events : Readable) (chunks : list Buffer)
    : Completion jsstring :=
  match events with
  | [] => Pending
  | data chunk :: events' => streamToString_events events' (chunks ++ [chunk])
  | error e :: _ => Throw e
  | end_ :: _ => Return (Buffer_toString (Buffer_concat chunks))
  end.

(** [streamToString(stream)].  On [undefined] the call [stream.on] throws
    inside the promise executor, which rejects the promise. *)
Definition streamToString (stream : option Readable) : Async jsstring := λ w,
  match stream with
  | Some events => (streamToString_events events [], w)
  | None =>
      (Throw (TypeError "Cannot read properties of undefined (reading 'on')"), w)
  end.

(** ** API endpoints *)

Record Response := {
  status : N;
  body : JSValue;
}.

(** [res.status(code).json(value)]. *)
Definition res_status_json (code : N) (value : JSValue) : Async Response :=
  mret {| status := code; body := value |}.

(** [JSON.parse(text)] as a statement: a syntax error is thrown. *)
Definition JSON_parse_or_throw (text : jsstring) : Async JSValue :=
  match JSON_parse text with
  | inl value => mret value
  | inr msg => throw {| name := u16 "SyntaxError"; message := msg |}
  end.

(** [{ message: msg }]. *)
Definition message_body (msg : string) : JSValue :=
  JObject [(u16 "message", JString (u16 msg))].
Arguments message_body msg%_string.

(** [{ message: msg, error: error.message }]. *)
Definition error_body (msg : string) (error : JSError) : JSValue :=
  JObject [(u16 "message", JString (u16 msg));
           (u16 "error", JString (message error))].
Arguments error_body msg%_string error.

(** [getObjectParams] (lines 65-68). *)
Definition getObjectParams (env : Env) : Params :=
  {| Bucket := S3_BUCKET_NAME env; Key := WEATHER_FILE_KEY;
     Body := JUndefined; ContentType := None |}.

(** The [try] block of [GET /weather] (lines 70-83). *)
Definition weather_try (env : Env) : Async Response :=
  let command := GetObjectCommand (getObjectParams env) in
  s3Response ← send (s3Client env) command;
  contentString ← streamToString (response_Body s3Response);
  weatherData ← JSON_parse_or_throw contentString;
  res_status_json 200 weatherData.

(** [app.get('/weather', ...)] (lines 62-93). *)
Definition get_weather (env : Env) : Async Response :=
  console_log (u16 "Fetching weather from s3://" ++ S3_BUCKET_NAME env
               ++ u16 "/" ++ WEATHER_FILE_KEY);;
  try_catch (weather_try env) (λ error,
    console_error "S3 GetObject error:" error;;
    if bool_decide (name error = u16 "NoSuchKey")
    then res_status_json 404 (message_body "Weather prediction file not found.")
    else res_status_json 500 (error_body "Failed to fetch weather data." error)).

(** [const { email } = req.body] (line 100): destructuring [undefined] or
    [null] throws; a property the value does not have is [undefined]. *)
Definition destructure_email (req_body : JSValue) : Async JSValue :=
  match req_body with
  | JUndefined =>
      throw (TypeError "Cannot destructure property 'email' of 'req.body' as it is undefined.")
  | JNull =>
      throw (TypeError "Cannot destructure property 'email' of 'req.body' as it is null.")
  | JObject properties => mret (own_property properties (u16 "email"))
  | JBool _ | JNumber _ | JString _ | JArray _ => mret JUndefined
  end.

(** [email.includes(search)]: strings and arrays have the method; on any
    other JSON value the property is missing or not callable. *)
Definition email_includes (email : JSValue) (search : jsstring) : Async bool :=
  match email with
  | JString s => mret (String_includes s search)
  | JArray elements => mret (Array_includes elements search)
  | JUndefined =>
      throw (TypeError "Cannot read properties of undefined (reading 'includes')")
  | JNull =>
      throw (TypeError "Cannot read properties of null (reading 'includes')")
  | JBool _ | JNumber _ | JObject _ =>
      throw (TypeError "email.includes is not a function")
  end.

(** [email.replace(/cls/g, replacement)]: only strings have the method. *)
Definition email_replace (email : JSValue) (cls : CharacterClass)
    (replacement : jsstring) : Async jsstring :=
  match email with
  | JString s => mret (String_replace s cls replacement)
  | JUndefined =>
      throw (TypeError "Cannot read properties of undefined (reading 'replace')")
  | JNull =>
      throw (TypeError "Cannot read properties of null (reading 'replace')")
  | JBool _ | JNumber _ | JArray _ | JObject _ =>
      throw (TypeError "email.replace is not a function")
  end.

(** [putObjectParams] (lines 114-119). *)
Definition putObjectParams (env : Env) (s3Key : jsstring) (email : JSValue)
    : Params :=
  {| Bucket := S3_BUCKET_NAME env; Key := s3Key; Body := email;
     ContentType := Some (u16 "text/plain") |}.

(** The condition of line 102, [!email || !email.includes('@')]. *)
Definition invalid_email (email : JSValue) : Async bool :=
  if negb (ToBoolean email) then mret true
  else includes ← email_includes email (u16 "@"); mret (negb includes).

(** [app.post('/subscribe', ...)] (lines 99-132). *)
Definition post_subscribe (env : Env) (req_body : JSValue) : Async Response :=
  email ← destructure_email req_body;
  invalid ← invalid_email email;
  if (invalid : bool)
  then res_status_json 400 (message_body "Invalid email address provided.")
  else
    sanitizedEmail ← email_replace email unsafe_character [];
    let s3Key := SUBSCRIPTIONS_PATH ++ sanitizedEmail in
    console_log (u16 "Saving subscription to s3://" ++ S3_BUCKET_NAME env
                 ++ u16 "/" ++ s3Key);;
    try_catch
      (let command := PutObjectCommand (putObjectParams env s3Key email) in
       send (s3Client env) command;;
       res_status_json 201 (message_body "Subscription successful!"))
      (λ error,
        console_error "S3 PutObject error:" error;;
        res_status_json 500 (error_body "Failed to save subscription." error)).

End Server.

(** ** What the endpoints document *)

(** The status codes of section 6 of the specification. *)
Definition weather_statuses : list N := [200; 404; 500]%N.

Definition subscribe_statuses : list N := [400; 201; 500]%N.

Section Failures.
Context `{Runtime}.

(** The ways the read of [GET /weather] fails in a world, with the error the
    [catch] block receives: the store rejects the command, the key is
    missing, the download breaks, or the content is not JSON. *)
Inductive weather_fails (env : Env) (w : World) : JSError → Prop :=
| store_rejects e :
    outage w = Some e →
    weather_fails env w e
| key_missing :
    outage w = None →
    objects w !! (S3_BUCKET_NAME env, WEATHER_FILE_KEY) = None →
    weather_fails env w NoSuchKey
| download_breaks o e :
    outage w = None →
    objects w !! (S3_BUCKET_NAME env, WEATHER_FILE_KEY) = Some o →
    stream_fault w = Some e →
    weather_fails env w e
| content_malformed o msg :
    outage w = None →
    objects w !! (S3_BUCKET_NAME env, WEATHER_FILE_KEY) = Some o →
    stream_fault w = None →
    JSON_parse (Buffer_toString (content o)) = inr msg →
    weather_fails env w {| name := u16 "SyntaxError"; message := msg |}.

End Failures.

(** ** A runtime to run the scenarios *)

(** A small runtime on which the scenarios of section 8 of the specification
    can be evaluated.  It covers 7-bit text and a fragment of JSON (objects,
    arrays, strings without escapes, unsigned integers, [true], [false],
    [null]); the theorems below hold for every runtime and use this one only
    in their examples. *)
Module Scenario.

Definition encode_unit (c : N) : Byte.byte :=
  match Byte.of_N c with
  | Some b => if (c <? 128)%N then b else Byte.x3f
  | None => Byte.x3f
  end.

Definition decode_byte (b : Byte.byte) : N :=
  if (Byte.to_N b <? 128)%N then Byte.to_N b else 65533%N.

Definition is_whitespace (c : N) : bool :=
  bool_decide (c ∈ [32; 9; 10; 13]%N).

Definition is_digit (c : N) : bool := (48 <=? c)%N && (c <=? 57)%N.

Fixpoint skip_whitespace (s : jsstring) : jsstring :=
  match s with
  | c :: s' => if is_whitespace c then skip_whitespace s' else s
  | [] => []
  end.

Fixpoint digits (s : jsstring) (acc : N) : N * jsstring :=
  match s with
  | c :: s' => if is_digit c then digits s' (10 * acc + (c - 48))%N else (acc, s)
  | [] => (acc, [])
  end.

(** The units of a string literal up to its closing quote. *)
Fixpoint characters (s acc : jsstring) : option (jsstring * jsstring) :=
  match s with
  | [] => None
  | c :: s' =>
      if (c =? 34)%N then Some (acc, s')
      else if (c =? 92)%N || (c <? 32)%N then None
      else characters s' (acc ++ [c])
  end.

(** Assigning a property: a repeated key keeps its place and takes the new
    value. *)
Fixpoint define_property (properties : list (jsstring * JSValue))
    (key : jsstring) (value : JSValue) : list (jsstring * JSValue) :=
  match properties with
  | [] => [(key, value)]
  | (k, v) :: rest =>
      if bool_decide (k = key) then (k, value) :: rest
      else (k, v) :: define_property rest key value
  end.

Definition number_of (n : N) : option JSValue :=
  if (n <? 2 ^ 53)%N
  then Some (JNumber (PrimFloat.of_uint63 (Uint63.of_Z (Z.of_N n))))
  else None.

Fixpoint value (fuel : nat) (s : jsstring) : option (JSValue * jsstring) :=
  match fuel with
  | O => None
  | S fuel =>
      let s := skip_whitespace s in
      if String_startsWith s (u16 "null") then Some (JNull, drop 4 s)
      else if String_startsWith s (u16 "true") then Some (JBool true, drop 4 s)
      else if String_startsWith s (u16 "false") then Some (JBool false, drop 5 s)
      else
        match s with
        | [] => None
        | c :: rest =>
            if (c =? 34)%N then
              '(str, rest') ← characters rest []; Some (JString str, rest')
            else if (c =? 91)%N then
              match skip_whitespace rest with
              | d :: rest' =>
                  if (d =? 93)%N then Some (JArray [], rest')
                  else '(vs, rest'') ← elements fuel rest [];
                       Some (JArray vs, rest'')
              | [] => None
              end
            else if (c =? 123)%N then
              match skip_whitespace rest with
              | d :: rest' =>
                  if (d =? 125)%N then Some (JObject [], rest')
                  else '(ps, rest'') ← members fuel rest [];
                       Some (JObject ps, rest'')
              | [] => None
              end
            else if (c =? 48)%N then Some (JNumber 0, rest)
            else if is_digit c then
              let '(n, rest') := digits s 0 in
              v ← number_of n; Some (v, rest')
            else None
        end
  end
with elements (fuel : nat) (s : jsstring) (acc : list JSValue)
    : option (list JSValue * jsstring) :=
  match fuel with
  | O => None
  | S fuel =>
      '(v, rest) ← value fuel s;
      match skip_whitespace rest with
      | c :: rest' =>
          if (c =? 44)%N then elements fuel rest' (acc ++ [v])
          else if (c =? 93)%N then Some (acc ++ [v], rest')
          else None
      | [] => None
      end
  end
with members (fuel : nat) (s : jsstring) (acc : list (jsstring * JSValue))
    : option (list (jsstring * JSValue) * jsstring) :=
  match fuel with
  | O => None
  | S fuel =>
      match skip_whitespace s with
      | q :: s' =>
          if (q =? 34)%N then
            '(key, rest) ← characters s' [];
            match skip_whitespace rest with
            | c :: rest' =>
                if (c =? 58)%N then
                  '(v, rest'') ← value fuel rest';
                  let acc := define_property acc key v in
                  match skip_whitespace rest'' with
                  | d :: rest3 =>
                      if (d =? 44)%N then members fuel rest3 acc
                      else if (d =? 125)%N then Some (acc, rest3)
                      else None
                  | [] => None
                  end
                else None
            | [] => None
            end
          else None
      | [] => None
      end
  end.

Definition parse (text : jsstring) : JSValue + jsstring :=
  match value (S (length text)) text with
  | Some (v, rest) =>
      match skip_whitespace rest with
      | [] => inl v
      | _ :: _ => inr (u16 "Unexpected non-whitespace character after JSON")
      end
  | None => inr (u16 "Unexpected token in JSON")
  end.

Definition runtime : Runtime := {|
  Buffer_from := λ s, encode_unit <$> s;
  Buffer_toString := λ b, decode_byte <$> b;
  JSON_parse := parse;
|}.

(** A world without faults that holds the given objects. *)
Definition healthy (store : gmap (jsstring * jsstring) S3Object) : World :=
  {| objects := store; outage := None; stream_fault := None;
     sent := []; console := [] |}.

(** A world whose store is unreachable. *)
Definition unreachable : World :=
  {| objects := ∅;
     outage := Some {| name := u16 "TimeoutError";
                       message := u16 "connect ETIMEDOUT" |};
     stream_fault := None; sent := []; console := [] |}.

Definition quote : jsstring := [34%N].

(** The document of scenario 1, a [weatherCode] of 2. *)
Definition prediction : jsstring :=
  u16 "{" ++ quote ++ u16 "weatherCode" ++ quote ++ u16 ":2}".

(** The stored document, delivered in two chunks. *)
Definition prediction_object : S3Object :=
  {| chunks := [encode_unit <$> take 7 prediction;
                encode_unit <$> drop 7 prediction];
     content_type := Some (u16 "application/json") |}.

Definition with_prediction : World :=
  healthy {[ (u16 "daily-weather-output-mscac", WEATHER_FILE_KEY)
             := prediction_object ]}.

(** A world whose weather object is not JSON. *)
Definition with_garbage : World :=
  healthy {[ (u16 "daily-weather-output-mscac", WEATHER_FILE_KEY)
             := {| chunks := [encode_unit <$> u16 "not json"];
                   content_type := None |} ]}.

(** The object [POST /subscribe] stores for [email]. *)
Definition subscriber (email : string) : S3Object :=
  {| chunks := [encode_unit <$> u16 email];
     content_type := Some (u16 "text/plain") |}.
Arguments subscriber email%_string.

(** [{ "email": email }]. *)
Definition email_body (email : JSValue) : JSValue :=
  JObject [(u16 "email", email)].

End Scenario.

(** Unfolds the promise plumbing of a handler run. *)
Ltac run_async :=
  unfold mbind, mret, Async_bind, Async_ret, try_catch, throw,
    console_log, console_error, res_status_json; simpl.

(** * Properties *)

(** ** Strings and the sanitizing pattern *)

Lemma String_startsWith_empty (s : jsstring) : String_startsWith s [] = true.
Proof. by destruct s. Qed.

Lemma String_startsWith_unit (s : jsstring) (c : N) :
  String_startsWith s [c] = true ↔ ∃ s', s = c :: s'.
Proof.
  destruct s as [|d s']; simpl.
  - split; [discriminate | intros [? ?]; discriminate].
  - rewrite String_startsWith_empty, andb_true_r, N.eqb_eq. split.
    + intros ->. by exists s'.
    + intros [? [= -> _]]. done.
Qed.

(** [s.includes(c)] for a one-unit string [c] is membership of the unit. *)
Lemma String_includes_unit (s : jsstring) (c : N) :
  String_includes s [c] = true ↔ c ∈ s.
Proof.
  induction s as [|d s' IH].
  - simpl. split; [discriminate | intros Hin; inversion Hin].
  - change (String_includes (d :: s') [c])
      with (String_startsWith (d :: s') [c] || String_includes s' [c]).
    rewrite orb_true_iff, String_startsWith_unit, IH, elem_of_cons.
    split.
    + intros [[? [= -> _]] | ?]; auto.
    + intros [-> | ?]; [left; by exists s' | by right].
Qed.

(** The pattern matches exactly the units the specification deletes. *)
Lemma unsafe_character_matches (c : N) :
  CharacterClass_matches unsafe_character c = negb (retained c).
Proof.
  unfold CharacterClass_matches, retained.
  change (negated unsafe_character) with true.
  rewrite xorb_true_l. f_equal.
  change (existsb (ClassRanges_has c) (ranges unsafe_character))
    with ((97 <=? c) && (c <=? 122) || ((65 <=? c) && (c <=? 90)
          || ((48 <=? c) && (c <=? 57)
          || ((c =? 45) || ((c =? 95) || ((c =? 46) || ((c =? 64) || false)))))))%N.
  apply eq_true_iff_eq.
  rewrite !orb_true_iff, !andb_true_iff, !N.leb_le, !N.eqb_eq. intuition lia.
Qed.

Lemma String_replace_delete (s : jsstring) (cls : CharacterClass) :
  String_replace s cls []
  = filter (λ c, Is_true (negb (CharacterClass_matches cls c))) s.
Proof.
  induction s as [|c s' IH]; [done|].
  simpl. rewrite filter_cons, IH.
  by destruct (CharacterClass_matches cls c).
Qed.

Lemma sanitizedEmail_spec (e : jsstring) : sanitizedEmail e = sanitize_spec e.
Proof.
  unfold sanitizedEmail, sanitize_spec. rewrite String_replace_delete.
  apply list_filter_iff. intros c.
  by rewrite unsafe_character_matches, negb_involutive.
Qed.

Lemma elem_of_sanitizedEmail (e : jsstring) (c : N) :
  c ∈ sanitizedEmail e ↔ c ∈ e ∧ retained c = true.
Proof.
  rewrite sanitizedEmail_spec. unfold sanitize_spec.
  rewrite list_elem_of_filter, Is_true_true. tauto.
Qed.

(** ['@'] is one of the retained characters. *)
Lemma sanitizedEmail_keeps_at (e : jsstring) :
  code "@" ∈ e → code "@" ∈ sanitizedEmail e.
Proof. intros Hin. by apply elem_of_sanitizedEmail. Qed.

Example sanitizedEmail_weird :
  sanitizedEmail (u16 "weird!!@x.com") = u16 "weird@x.com".
Proof. reflexivity. Qed.

(** C4. Sanitizing is a function of the email alone (in every world the
    [replace] call returns [sanitizedEmail e] and leaves the world as it
    was), it is idempotent, and its result is exactly [e] with the units
    outside [[A-Za-z0-9\-_.@]] deleted: the retained units, in their
    original order. *)
Theorem sanitize_idempotent_exact (e : jsstring) :
  (∀ w, email_replace (JString e) unsafe_character [] w
        = (Return (sanitizedEmail e), w))
  ∧ sanitizedEmail (sanitizedEmail e) = sanitizedEmail e
  ∧ sanitizedEmail e = sanitize_spec e
  ∧ sanitizedEmail e `sublist_of` e
  ∧ (∀ c, c ∈ sanitizedEmail e ↔ c ∈ e ∧ retained c = true).
Proof.
  split_and!.
  - done.
  - rewrite !sanitizedEmail_spec. unfold sanitize_spec.
    rewrite list_filter_filter. apply list_filter_iff. tauto.
  - apply sanitizedEmail_spec.
  - rewrite sanitizedEmail_spec. apply sublist_filter.
  - apply elem_of_sanitizedEmail.
Qed.

(** ** GET /weather *)

Section Weather.
Context `{Runtime}.
Implicit Types (env : Env) (w : World) (e : JSError).

(** The ['data'] events are pushed in order. *)
Lemma streamToString_events_data (cs acc : list Buffer) (rest : Readable) :
  streamToString_events ((data <$> cs) ++ rest) acc
  = streamToString_events rest (acc ++ cs).
Proof.
  revert acc. induction cs as [|c cs IH]; intros acc; simpl.
  - by rewrite app_nil_r.
  - by rewrite IH, <- app_assoc.
Qed.

(** Events after the promise has settled do not change it. *)
Lemma streamToString_events_settled (cs acc : list Buffer) (late : Readable) :
  streamToString_events ((data <$> cs) ++ end_ :: late) acc
  = Return (Buffer_toString (Buffer_concat (acc ++ cs))).
Proof. by rewrite streamToString_events_data. Qed.

(** A download settles: with the decoded content, or with the stream's
    error. *)
Lemma streamToString_download w (o : S3Object) :
  streamToString_events (download w o) []
  = match stream_fault w with
    | Some e => Throw e
    | None => Return (Buffer_toString (content o))
    end.
Proof.
  unfold download. rewrite streamToString_events_data. simpl.
  by destruct (stream_fault w).
Qed.

(** A stream that emits neither ['end'] nor ['error'] never settles the
    promise. *)
Lemma streamToString_events_pending (cs acc : list Buffer) :
  streamToString_events (data <$> cs) acc = Pending.
Proof.
  rewrite <- (app_nil_r (data <$> cs)). by rewrite streamToString_events_data.
Qed.

Lemma weather_try_throws env w e :
  weather_fails env w e →
  weather_try env w
  = (Throw e, recorded (GetObjectCommand (getObjectParams env)) w).
Proof.
  intros Hfails. unfold weather_try, send, streamToString. run_async.
  destruct Hfails as [e He | Hup Hkey | o e Hup Hkey He | o msg Hup Hkey He Hmsg].
  - by rewrite He.
  - by rewrite Hup, Hkey.
  - rewrite Hup, Hkey. simpl.
    change (streamToString_events _ []) with
      (streamToString_events (download w o) []).
    by rewrite streamToString_download, He.
  - rewrite Hup, Hkey. simpl.
    change (streamToString_events _ []) with
      (streamToString_events (download w o) []).
    rewrite streamToString_download, He.
    unfold JSON_parse_or_throw. by rewrite Hmsg.
Qed.

Lemma weather_try_returns env w (o : S3Object) (J : JSValue) :
  outage w = None →
  stream_fault w = None →
  objects w !! (S3_BUCKET_NAME env, WEATHER_FILE_KEY) = Some o →
  JSON_parse (Buffer_toString (content o)) = inl J →
  weather_try env w
  = (Return {| status := 200; body := J |},
     recorded (GetObjectCommand (getObjectParams env)) w).
Proof.
  intros Hup Hfault Hkey HJ. unfold weather_try, send, streamToString.
  run_async. rewrite Hup, Hkey. simpl.
  change (streamToString_events _ []) with
    (streamToString_events (download w o) []).
  rewrite streamToString_download, Hfault.
  unfold JSON_parse_or_throw. by rewrite HJ.
Qed.

(** Console output does not change what the store does. *)
Lemma weather_fails_logged env w e (line : LogLine) :
  weather_fails env w e → weather_fails env (logged line w) e.
Proof.
  intros [e' He | Hup Hkey | o e' Hup Hkey He | o msg Hup Hkey He Hmsg].
  - by apply store_rejects.
  - by apply key_missing.
  - by eapply download_breaks.
  - by eapply content_malformed.
Qed.

(** In every world the read either yields a parsed document or fails in
    one of the four ways of [weather_fails]. *)
Lemma weather_returns_or_fails env w :
  (∃ o J, outage w = None ∧ stream_fault w = None
          ∧ objects w !! (S3_BUCKET_NAME env, WEATHER_FILE_KEY) = Some o
          ∧ JSON_parse (Buffer_toString (content o)) = inl J)
  ∨ ∃ e, weather_fails env w e.
Proof.
  destruct (outage w) as [e|] eqn:Hup.
  { right. exists e. by apply store_rejects. }
  destruct (objects w !! (S3_BUCKET_NAME env, WEATHER_FILE_KEY)) as [o|] eqn:Hkey.
  2: { right. exists NoSuchKey. by apply key_missing. }
  destruct (stream_fault w) as [e|] eqn:Hfault.
  { right. exists e. by eapply download_breaks. }
  destruct (JSON_parse (Buffer_toString (content o))) as [J|msg] eqn:HJ.
  - left. by exists o, J.
  - right. eexists. by eapply content_malformed.
Qed.

(** A successful read: one line on the console, one command to the store,
    status 200 with the parsed document. *)
Lemma get_weather_returns env w (o : S3Object) (J : JSValue) :
  outage w = None →
  stream_fault w = None →
  objects w !! (S3_BUCKET_NAME env, WEATHER_FILE_KEY) = Some o →
  JSON_parse (Buffer_toString (content o)) = inl J →
  ∃ line, get_weather env w
          = (Return {| status := 200; body := J |},
             recorded (GetObjectCommand (getObjectParams env))
               (logged (Log line) w)).
Proof.
  intros Hup Hfault Hkey HJ. eexists.
  unfold get_weather. run_async. by erewrite weather_try_returns.
Qed.

(** A failed read reaches the [catch] block, which logs the error and
    answers 404 for [NoSuchKey] and 500 for everything else. *)
Lemma get_weather_catches env w e :
  weather_fails env w e →
  ∃ line, get_weather env w
          = (Return
               (if bool_decide (name e = u16 "NoSuchKey")
                then {| status := 404;
                        body := message_body "Weather prediction file not found." |}
                else {| status := 500;
                        body := error_body "Failed to fetch weather data." e |}),
             logged (LogError (u16 "S3 GetObject error:") e)
               (recorded (GetObjectCommand (getObjectParams env))
                  (logged (Log line) w))).
Proof.
  intros Hfails. eexists. unfold get_weather. run_async.
  erewrite weather_try_throws; [|by apply weather_fails_logged].
  simpl. by destruct (bool_decide _).
Qed.

(** C1. A document stored at the weather key that the runtime parses as
    JSON value [J] comes back from [GET /weather] with status 200 and body
    [J]: the chunks of the download are concatenated, decoded as UTF-8,
    parsed, and the parsed value is handed to [res.json] as it is.  The
    store is read once and not changed. *)
Theorem weather_roundtrip env w (o : S3Object) (J : JSValue) :
  outage w = None →
  stream_fault w = None →
  objects w !! (S3_BUCKET_NAME env, WEATHER_FILE_KEY) = Some o →
  JSON_parse (Buffer_toString (Buffer_concat (chunks o))) = inl J →
  ∃ w', get_weather env w = (Return {| status := 200; body := J |}, w')
        ∧ objects w' = objects w
        ∧ sent w' = GetObjectCommand (getObjectParams env) :: sent w.
Proof.
  intros Hup Hfault Hkey HJ.
  destruct (get_weather_returns env w o J) as [line ->]; try done.
  by eexists.
Qed.

(** C5. When no object exists at the weather key, so that the store
    answers the read with its [NoSuchKey] error, [GET /weather] returns
    status 404 with body [{"message":"Weather prediction file not found."}]. *)
Theorem weather_missing_404 env w :
  outage w = None →
  objects w !! (S3_BUCKET_NAME env, WEATHER_FILE_KEY) = None →
  ∃ w', get_weather env w
        = (Return {| status := 404;
                     body := JObject
                       [(u16 "message",
                         JString (u16 "Weather prediction file not found."))] |},
           w')
        ∧ objects w' = objects w
        ∧ sent w' = GetObjectCommand (getObjectParams env) :: sent w.
Proof.
  intros Hup Hkey.
  destruct (get_weather_catches env w NoSuchKey) as [line ->].
  { by apply key_missing. }
  by eexists.
Qed.

(** C6. When the read fails in any way other than [NoSuchKey] (the store
    rejects the command, the download breaks, or the content is not JSON)
    [GET /weather] returns status 500 with a body of two fields: [message],
    and [error] holding the message of the error.  The store is asked
    once: there is no retry. *)
Theorem weather_failure_500 env w e :
  weather_fails env w e →
  name e ≠ u16 "NoSuchKey" →
  ∃ w', get_weather env w
        = (Return {| status := 500;
                     body := JObject
                       [(u16 "message", JString (u16 "Failed to fetch weather data."));
                        (u16 "error", JString (message e))] |},
           w')
        ∧ objects w' = objects w
        ∧ sent w' = GetObjectCommand (getObjectParams env) :: sent w.
Proof.
  intros Hfails Hname.
  destruct (get_weather_catches env w e Hfails) as [line ->].
  rewrite bool_decide_eq_false_2 by done. by eexists.
Qed.

(** What [GET /weather] answers depends on the faults of the store and on
    the object at the weather key, and on nothing else in the world. *)
Lemma get_weather_response_ext env w1 w2 :
  outage w1 = outage w2 →
  stream_fault w1 = stream_fault w2 →
  objects w1 !! (S3_BUCKET_NAME env, WEATHER_FILE_KEY)
  = objects w2 !! (S3_BUCKET_NAME env, WEATHER_FILE_KEY) →
  (get_weather env w1).1 = (get_weather env w2).1.
Proof.
  intros Hup Hfault Hkey.
  destruct (weather_returns_or_fails env w1)
    as [(o & J & Hup1 & Hf1 & Hkey1 & HJ) | [e He]].
  - destruct (get_weather_returns env w1 o J) as [line1 ->]; try done.
    destruct (get_weather_returns env w2 o J) as [line2 ->];
      first [done | congruence].
  - assert (weather_fails env w2 e) as He2.
    { destruct He as [e He | Hup1 Hkey1 | o e Hup1 Hkey1 He
                     | o msg Hup1 Hkey1 He Hmsg].
      - apply store_rejects. congruence.
      - apply key_missing; congruence.
      - apply (download_breaks _ _ o); congruence.
      - apply (content_malformed _ _ o); [congruence .. | done]. }
    destruct (get_weather_catches env w1 e He) as [line1 ->].
    by destruct (get_weather_catches env w2 e He2) as [line2 ->].
Qed.

(** On the store of this model, which always replies, [GET /weather]
    answers with one of its three statuses. *)
Lemma weather_status_documented env w :
  ∃ r w', get_weather env w = (Return r, w') ∧ status r ∈ weather_statuses.
Proof.
  destruct (weather_returns_or_fails env w)
    as [(o & J & Hup & Hf & Hkey & HJ) | [e He]].
  - destruct (get_weather_returns env w o J) as [line ->]; try done.
    eexists _, _. split; [done|]. simpl. set_solver.
  - destruct (get_weather_catches env w e He) as [line ->].
    eexists _, _. split; [done|].
    destruct (bool_decide _); simpl; set_solver.
Qed.

End Weather.

(** ** POST /subscribe *)

Section Subscribe.
Context `{Runtime}.
Implicit Types (env : Env) (w : World) (e : JSError) (email : jsstring).

Lemma String_includes_at email :
  String_includes email (u16 "@") = bool_decide (code "@" ∈ email).
Proof.
  apply eq_true_iff_eq.
  by rewrite bool_decide_eq_true, <- String_includes_unit.
Qed.

(** The handler on a body whose [email] is a string: 400 without touching
    the world when the string has no ['@'], otherwise one line on the
    console and one write, answered 201 or, when the store rejects it,
    logged and answered 500. *)
Lemma post_subscribe_string env (properties : list (jsstring * JSValue)) email w :
  own_property properties (u16 "email") = JString email →
  post_subscribe env (JObject properties) w
  = if bool_decide (code "@" ∈ email) then
      let s3Key := SUBSCRIPTIONS_PATH ++ sanitizedEmail email in
      let command := PutObjectCommand (putObjectParams env s3Key (JString email)) in
      let line := u16 "Saving subscription to s3://" ++ S3_BUCKET_NAME env
                  ++ u16 "/" ++ s3Key in
      let w1 := recorded command (logged (Log line) w) in
      match outage w with
      | None =>
          (Return {| status := 201;
                     body := message_body "Subscription successful!" |},
           stored (S3_BUCKET_NAME env) s3Key
             {| chunks := [Buffer_from email];
                content_type := Some (u16 "text/plain") |} w1)
      | Some e =>
          (Return {| status := 500;
                     body := error_body "Failed to save subscription." e |},
           logged (LogError (u16 "S3 PutObject error:") e) w1)
      end
    else
      (Return {| status := 400;
                 body := message_body "Invalid email address provided." |}, w).
Proof.
  intros Hemail.
  unfold post_subscribe, destructure_email. run_async. rewrite Hemail.
  unfold invalid_email, email_includes. run_async.
  destruct email as [|c email']; [done|].
  rewrite String_includes_at.
  change (negb (bool_decide (c :: email' = []))) with true. simpl.
  destruct (bool_decide (code "@" ∈ c :: email')); simpl; [|done].
  unfold send. simpl. by destruct (outage w).
Qed.

(** Every run of the handler is of one of three kinds: an exception leaves
    the handler before anything was logged or sent; the request is refused
    with 400, again with the world untouched; or the body is an object whose
    [email] is a string with an ['@'], the case of [post_subscribe_string]. *)
Lemma post_subscribe_cases env (req_body : JSValue) w :
  (∃ e, post_subscribe env req_body w = (Throw e, w))
  ∨ post_subscribe env req_body w
    = (Return {| status := 400;
                 body := message_body "Invalid email address provided." |}, w)
  ∨ (∃ properties email,
       req_body = JObject properties
       ∧ own_property properties (u16 "email") = JString email
       ∧ code "@" ∈ email).
Proof.
  destruct req_body as [| |b|x|s|elements|properties];
    try (left; by eexists); try (right; left; done).
  destruct (own_property properties (u16 "email"))
    as [| |b|x|email|elements|inner] eqn:Hemail.
  - right; left. unfold post_subscribe, destructure_email. run_async.
    by rewrite Hemail.
  - right; left. unfold post_subscribe, destructure_email. run_async.
    by rewrite Hemail.
  - destruct b.
    + left. eexists. unfold post_subscribe, destructure_email. run_async.
      by rewrite Hemail.
    + right; left. unfold post_subscribe, destructure_email. run_async.
      by rewrite Hemail.
  - destruct (ToBoolean (JNumber x)) eqn:Htruthy.
    + left. eexists. unfold post_subscribe, destructure_email. run_async.
      rewrite Hemail. unfold invalid_email. by rewrite Htruthy.
    + right; left. unfold post_subscribe, destructure_email. run_async.
      rewrite Hemail. unfold invalid_email. by rewrite Htruthy.
  - destruct (decide (code "@" ∈ email)) as [Hat|Hat].
    + right; right. by exists properties, email.
    + right; left. rewrite (post_subscribe_string env properties email w Hemail).
      by rewrite bool_decide_eq_false_2.
  - destruct (Array_includes elements (u16 "@")) eqn:Hincludes.
    + left. eexists. unfold post_subscribe, destructure_email. run_async.
      rewrite Hemail. unfold invalid_email. simpl. run_async.
      by rewrite Hincludes.
    + right; left. unfold post_subscribe, destructure_email. run_async.
      rewrite Hemail. unfold invalid_email. simpl. run_async.
      by rewrite Hincludes.
  - left. eexists. unfold post_subscribe, destructure_email. run_async.
    by rewrite Hemail.
Qed.

(** Whenever [POST /subscribe] answers, the status is one of its three. *)
Lemma subscribe_status_documented env (req_body : JSValue) w r w' :
  post_subscribe env req_body w = (Return r, w') →
  status r ∈ subscribe_statuses.
Proof.
  destruct (post_subscribe_cases env req_body w)
    as [[e ->] | [-> | (properties & email & -> & Hemail & Hat)]].
  - discriminate.
  - intros [= <- _]. simpl. set_solver.
  - rewrite (post_subscribe_string env properties email w Hemail).
    rewrite bool_decide_eq_true_2 by done. simpl.
    destruct (outage w); intros [= <- _]; simpl; set_solver.
Qed.

(** The keys under which subscribers are stored never meet the weather
    key. *)
Lemma s3Key_not_weather (sanitized : jsstring) :
  SUBSCRIPTIONS_PATH ++ sanitized ≠ WEATHER_FILE_KEY.
Proof. intros Heq. vm_compute in Heq. discriminate Heq. Qed.

Lemma s3Key_extends_prefix (sanitized : jsstring) :
  sanitized ≠ [] →
  SUBSCRIPTIONS_PATH `prefix_of` SUBSCRIPTIONS_PATH ++ sanitized
  ∧ SUBSCRIPTIONS_PATH ++ sanitized ≠ SUBSCRIPTIONS_PATH.
Proof.
  intros Hne. split; [by apply prefix_app_r|].
  intros Heq. apply Hne.
  apply (app_inv_head SUBSCRIPTIONS_PATH). by rewrite app_nil_r.
Qed.

(** No run of [POST /subscribe] touches the faults of the store or the
    object at the weather key of any bucket. *)
Lemma subscribe_preserves_weather env (req_body : JSValue) w (bucket : jsstring) :
  let w' := (post_subscribe env req_body w).2 in
  outage w' = outage w
  ∧ stream_fault w' = stream_fault w
  ∧ objects w' !! (bucket, WEATHER_FILE_KEY)
    = objects w !! (bucket, WEATHER_FILE_KEY).
Proof.
  destruct (post_subscribe_cases env req_body w)
    as [[e ->] | [-> | (properties & email & -> & Hemail & Hat)]]; [done..|].
  rewrite (post_subscribe_string env properties email w Hemail).
  rewrite bool_decide_eq_true_2 by done. cbv zeta.
  destruct (outage w) eqn:Hup; [done|].
  split_and!; [done..|].
  apply lookup_insert_ne. intros Hkey.
  apply (f_equal snd) in Hkey. by apply s3Key_not_weather in Hkey.
Qed.

(** Subscriptions never change what [GET /weather] answers. *)
Lemma weather_unaffected_by_subscribe env (req_body : JSValue) w :
  (get_weather env (post_subscribe env req_body w).2).1 = (get_weather env w).1.
Proof.
  destruct (subscribe_preserves_weather env req_body w (S3_BUCKET_NAME env))
    as (Hup & Hfault & Hkey).
  by apply get_weather_response_ext.
Qed.

(** A truthy number is no email, and no response is sent for it: line 102
    calls [includes] on it, outside every [try]. *)
Lemma subscribe_truthy_number_throws env (x : float) w :
  ToBoolean (JNumber x) = true →
  post_subscribe env (JObject [(u16 "email", JNumber x)]) w
  = (Throw (TypeError "email.includes is not a function"), w).
Proof.
  intros Htruthy. unfold post_subscribe, destructure_email. run_async.
  change (own_property _ _) with (JNumber x).
  unfold invalid_email. by rewrite Htruthy.
Qed.

(** C2. A body whose [email] is a string containing ['@'] is answered 201
    when the store accepts the write.  Exactly one command goes to the
    store: a write to the configured bucket at key ['subscribers/'] followed
    by the email with every character outside [[A-Za-z0-9\-_.@]] deleted
    ([sanitize_spec], the specification's sanitizing), with content type
    [text/plain] and the original email as its body; afterwards the store
    holds at that key the UTF-8 bytes of the original email, and nothing
    else in it has changed. *)
Theorem subscribe_valid_email_201 env (properties : list (jsstring * JSValue))
    email w :
  own_property properties (u16 "email") = JString email →
  code "@" ∈ email →
  outage w = None →
  ∃ w',
    post_subscribe env (JObject properties) w
    = (Return {| status := 201;
                 body := JObject [(u16 "message",
                                   JString (u16 "Subscription successful!"))] |},
       w')
    ∧ sent w'
      = PutObjectCommand
          {| Bucket := S3_BUCKET_NAME env;
             Key := u16 "subscribers/" ++ sanitize_spec email;
             Body := JString email;
             ContentType := Some (u16 "text/plain") |} :: sent w
    ∧ objects w'
      = <[(S3_BUCKET_NAME env, u16 "subscribers/" ++ sanitize_spec email) :=
            {| chunks := [Buffer_from email];
               content_type := Some (u16 "text/plain") |}]> (objects w).
Proof.
  intros Hemail Hat Hup.
  rewrite (post_subscribe_string env properties email w Hemail).
  rewrite bool_decide_eq_true_2 by done. cbv zeta. rewrite Hup.
  rewrite <- (sanitizedEmail_spec email).
  by eexists.
Qed.

(** C3. A body whose [email] is absent, the empty string, or a string
    without ['@'] is answered 400, and the world after the request is the
    world before it: no command was sent to the store, no object changed. *)
Theorem subscribe_invalid_email_400 env (properties : list (jsstring * JSValue)) w :
  own_property properties (u16 "email") = JUndefined
  ∨ own_property properties (u16 "email") = JString []
  ∨ (∃ email, own_property properties (u16 "email") = JString email
              ∧ code "@" ∉ email) →
  post_subscribe env (JObject properties) w
  = (Return {| status := 400;
               body := JObject [(u16 "message",
                                 JString (u16 "Invalid email address provided."))] |},
     w).
Proof.
  intros [Habsent | [Hempty | (email & Hemail & Hat)]].
  - unfold post_subscribe, destructure_email. run_async. by rewrite Habsent.
  - rewrite (post_subscribe_string env properties [] w Hempty).
    by rewrite bool_decide_eq_false_2 by set_solver.
  - rewrite (post_subscribe_string env properties email w Hemail).
    by rewrite bool_decide_eq_false_2.
Qed.

(** C7. The request [{"email": 5}]: the number is truthy, so line 102 calls
    [email.includes], which a number does not have.  The [TypeError] is
    raised before the [try] block: the handler sends no response at all,
    neither the 400 of an invalid email nor any other documented status,
    and nothing is logged. *)
Theorem subscribe_number_email_throws env w :
  post_subscribe env (JObject [(u16 "email", JNumber 5)]) w
  = (Throw (TypeError "email.includes is not a function"), w).
Proof. reflexivity. Qed.

(** C9. For a string the validation of line 102 tests nothing but the
    presence of ['@'] (which already excludes the empty string); every
    string with an ['@'] reaches the store; and the one-character email
    ["@"] is written under the key ['subscribers/@']. *)
Theorem validation_only_tests_at_sign env email w :
  invalid_email (JString email) w
  = (Return (bool_decide (email = [] ∨ code "@" ∉ email)), w)
  ∧ (code "@" ∈ email →
     ∃ r w', post_subscribe env (JObject [(u16 "email", JString email)]) w
             = (Return r, w')
             ∧ status r ≠ 400%N
             ∧ sent w'
               = PutObjectCommand
                   (putObjectParams env (u16 "subscribers/" ++ sanitizedEmail email)
                      (JString email)) :: sent w)
  ∧ (outage w = None →
     ∃ w', post_subscribe env (JObject [(u16 "email", JString (u16 "@"))]) w
           = (Return {| status := 201;
                        body := message_body "Subscription successful!" |}, w')
           ∧ sent w'
             = PutObjectCommand
                 {| Bucket := S3_BUCKET_NAME env; Key := u16 "subscribers/@";
                    Body := JString (u16 "@");
                    ContentType := Some (u16 "text/plain") |} :: sent w).
Proof.
  split_and!.
  - unfold invalid_email, email_includes. run_async.
    destruct email as [|c email']; [done|].
    change (negb (bool_decide (c :: email' = []))) with true. simpl.
    rewrite String_includes_at. f_equal. f_equal.
    destruct (decide (code "@" ∈ c :: email')) as [Hat|Hat].
    + rewrite bool_decide_eq_true_2 by done.
      rewrite bool_decide_eq_false_2; [done|]. intros [? | ?]; done.
    + rewrite bool_decide_eq_false_2 by done.
      rewrite bool_decide_eq_true_2; [done|]. by right.
  - intros Hat.
    rewrite (post_subscribe_string env [(u16 "email", JString email)]
               email w eq_refl).
    rewrite bool_decide_eq_true_2 by done. simpl.
    destruct (outage w); by eexists _, _.
  - intros Hup.
    rewrite (post_subscribe_string env [(u16 "email", JString (u16 "@"))]
               (u16 "@") w eq_refl).
    rewrite bool_decide_eq_true_2 by (vm_compute; set_solver).
    simpl. rewrite Hup. by eexists.
Qed.

(** C10. An email that passes validation keeps its ['@'] when sanitized,
    so its sanitized form is not empty; and every command a run of
    [POST /subscribe] sends is a write whose key is ['subscribers/']
    followed by such a non-empty name: it extends the prefix strictly and
    differs from the weather key ['daily-data/prediction.json'].  The
    object at the weather key is therefore the same after the request as
    before it. *)
Theorem subscribe_key_extends_prefix env (req_body : JSValue) w :
  (∀ email, code "@" ∈ email →
     code "@" ∈ sanitizedEmail email ∧ sanitizedEmail email ≠ [])
  ∧ (∃ new,
      sent (post_subscribe env req_body w).2 = new ++ sent w
      ∧ ∀ c, c ∈ new →
          ∃ email,
            c = PutObjectCommand
                  (putObjectParams env (SUBSCRIPTIONS_PATH ++ sanitizedEmail email)
                     (JString email))
            ∧ code "@" ∈ sanitizedEmail email
            ∧ SUBSCRIPTIONS_PATH `prefix_of` SUBSCRIPTIONS_PATH ++ sanitizedEmail email
            ∧ SUBSCRIPTIONS_PATH ++ sanitizedEmail email ≠ SUBSCRIPTIONS_PATH
            ∧ SUBSCRIPTIONS_PATH ++ sanitizedEmail email ≠ WEATHER_FILE_KEY)
  ∧ (∀ bucket,
       objects (post_subscribe env req_body w).2 !! (bucket, WEATHER_FILE_KEY)
       = objects w !! (bucket, WEATHER_FILE_KEY)).
Proof.
  assert (Hkeeps : ∀ email, code "@" ∈ email →
            code "@" ∈ sanitizedEmail email ∧ sanitizedEmail email ≠ []).
  { intros email Hat. apply sanitizedEmail_keeps_at in Hat.
    split; [done|]. intros Hnil. rewrite Hnil in Hat. inversion Hat. }
  split; [done|].
  split; [|intros bucket; apply (subscribe_preserves_weather env req_body w bucket)].
  destruct (post_subscribe_cases env req_body w)
    as [[e ->] | [-> | (properties & email & -> & Hemail & Hat)]].
  - exists []. split; [done|]. intros c Hc. inversion Hc.
  - exists []. split; [done|]. intros c Hc. inversion Hc.
  - rewrite (post_subscribe_string env properties email w Hemail).
    rewrite bool_decide_eq_true_2 by done. cbv zeta.
    eexists [_]. split.
    { by destruct (outage w). }
    intros c ->%list_elem_of_singleton. exists email.
    destruct (Hkeeps email Hat) as [Hat' Hne].
    destruct (s3Key_extends_prefix _ Hne) as [Hprefix Hstrict].
    split_and!; [done | done | done | done | apply s3Key_not_weather].
Qed.

End Subscribe.

(** ** Configuration *)

(** [env_or] is [||] on an environment entry and a string default. *)
Lemma env_or_js_or (env : Env) (var default : string) :
  JString (env_or env var default)
  = js_or (process_env env var) (JString (u16 default)).
Proof.
  unfold env_or, js_or, process_env.
  by destruct (env !! u16 var) as [[|c v]|].
Qed.

Lemma env_or_unset (env : Env) (var default : string) :
  env !! u16 var = None → env_or env var default = u16 default.
Proof. unfold env_or. by intros ->. Qed.

Lemma env_or_set (env : Env) (var default : string) (v : jsstring) :
  v ≠ [] → env !! u16 var = Some v → env_or env var default = v.
Proof. unfold env_or. intros Hv ->. by destruct v. Qed.

(** A variable set to the empty string is falsy for [||]: the default is
    taken, not the value. *)
Lemma config_empty_value_not_used :
  let env : Env := {[ u16 "PORT" := []; u16 "S3_BUCKET_NAME" := [];
                      u16 "AWS_REGION" := [] ]} in
  (env !! u16 "PORT" = Some [] ∧ PORT env ≠ JString [])
  ∧ (env !! u16 "S3_BUCKET_NAME" = Some [] ∧ S3_BUCKET_NAME env ≠ [])
  ∧ (env !! u16 "AWS_REGION" = Some [] ∧ S3_REGION env ≠ []).
Proof. vm_compute. split_and!; (reflexivity || discriminate). Qed.

(** C8, amended. With [PORT], [S3_BUCKET_NAME] and [AWS_REGION] unset the
    port is 3000, the bucket ['daily-weather-output-mscac'] and the region
    ['us-east-2']; a variable set to a non-empty string gives its value
    instead. *)
Theorem config_defaults (env : Env) :
  (env !! u16 "PORT" = None → PORT env = JNumber 3000)
  ∧ (env !! u16 "S3_BUCKET_NAME" = None →
     S3_BUCKET_NAME env = u16 "daily-weather-output-mscac")
  ∧ (env !! u16 "AWS_REGION" = None → S3_REGION env = u16 "us-east-2")
  ∧ (∀ v, v ≠ [] → env !! u16 "PORT" = Some v → PORT env = JString v)
  ∧ (∀ v, v ≠ [] → env !! u16 "S3_BUCKET_NAME" = Some v → S3_BUCKET_NAME env = v)
  ∧ (∀ v, v ≠ [] → env !! u16 "AWS_REGION" = Some v → S3_REGION env = v).
Proof.
  split_and!.
  - unfold PORT, process_env. by intros ->.
  - apply env_or_unset.
  - apply env_or_unset.
  - unfold PORT, process_env. intros v Hv ->. by destruct v.
  - intros v. apply env_or_set.
  - intros v. apply env_or_set.
Qed.

Lemma config_defaults_witness :
  PORT ∅ = JNumber 3000
  ∧ S3_BUCKET_NAME ∅ = u16 "daily-weather-output-mscac"
  ∧ S3_REGION ∅ = u16 "us-east-2"
  ∧ PORT {[ u16 "PORT" := u16 "8080" ]} = JString (u16 "8080")
  ∧ S3_BUCKET_NAME {[ u16 "S3_BUCKET_NAME" := u16 "my-bucket" ]} = u16 "my-bucket"
  ∧ S3_REGION {[ u16 "AWS_REGION" := u16 "eu-west-1" ]} = u16 "eu-west-1".
Proof.
  destruct (config_defaults ∅) as (Hport & Hbucket & Hregion & _).
  destruct (config_defaults {[ u16 "PORT" := u16 "8080" ]})
    as (_ & _ & _ & Hport' & _).
  destruct (config_defaults {[ u16 "S3_BUCKET_NAME" := u16 "my-bucket" ]})
    as (_ & _ & _ & _ & Hbucket' & _).
  destruct (config_defaults {[ u16 "AWS_REGION" := u16 "eu-west-1" ]})
    as (_ & _ & _ & _ & _ & Hregion').
  split_and!.
  - apply Hport. reflexivity.
  - apply Hbucket. reflexivity.
  - apply Hregion. reflexivity.
  - apply Hport'; [discriminate | reflexivity].
  - apply Hbucket'; [discriminate | reflexivity].
  - apply Hregion'; [discriminate | reflexivity].
Defined.

(** ** More on the stream helper and on GET /weather *)

Section Reading.
Context `{Runtime}.
Implicit Types (env : Env) (w : World) (e : JSError).

(** X1. [streamToString] resolves with the decoding of all the bytes that
    arrived before ['end'], whatever the chunks they arrived in: two
    streams that carry the same bytes give the same string, and events
    after ['end'] are ignored. *)
Theorem streamToString_any_chunking (cs1 cs2 : list Buffer)
    (late1 late2 : Readable) w :
  Buffer_concat cs1 = Buffer_concat cs2 →
  streamToString (Some ((data <$> cs1) ++ end_ :: late1)) w
  = (Return (Buffer_toString (Buffer_concat cs1)), w)
  ∧ streamToString (Some ((data <$> cs2) ++ end_ :: late2)) w
    = streamToString (Some ((data <$> cs1) ++ end_ :: late1)) w.
Proof.
  intros Hsame. unfold streamToString.
  rewrite !streamToString_events_settled. simpl. by rewrite Hsame.
Qed.

(** X2. A stream that emits ['error'] rejects the promise with that error:
    the chunks received before it are dropped, and a later ['end'] does not
    resolve it. *)
Theorem streamToString_error_rejects (cs : list Buffer) e (late : Readable) w :
  streamToString (Some ((data <$> cs) ++ error e :: late)) w = (Throw e, w).
Proof.
  unfold streamToString. by rewrite streamToString_events_data.
Qed.

(** X3. The helper has no timeout: while a stream has emitted only
    ['data'], however much of it, the promise stays pending, and the world
    is not touched. *)
Theorem streamToString_never_times_out (cs : list Buffer) w :
  streamToString (Some (data <$> cs)) w = (Pending, w).
Proof.
  unfold streamToString. by rewrite streamToString_events_pending.
Qed.

(** A world fails in at most one way. *)
Lemma weather_fails_unique env w e1 e2 :
  weather_fails env w e1 → weather_fails env w e2 → e1 = e2.
Proof.
  intros [e1' He1 | Hup1 Hkey1 | o1 e1' Hup1 Hkey1 He1 | o1 m1 Hup1 Hkey1 He1 Hm1]
         [e2' He2 | Hup2 Hkey2 | o2 e2' Hup2 Hkey2 He2 | o2 m2 Hup2 Hkey2 He2 Hm2];
    congruence.
Qed.

(** A world in which the read succeeds does not fail. *)
Lemma weather_fails_not_returns env w e (o : S3Object) (J : JSValue) :
  weather_fails env w e →
  outage w = None →
  stream_fault w = None →
  objects w !! (S3_BUCKET_NAME env, WEATHER_FILE_KEY) = Some o →
  JSON_parse (Buffer_toString (content o)) = inl J →
  False.
Proof.
  intros [e' He | Hup Hkey | o' e' Hup Hkey He | o' m Hup Hkey He Hm]
         Hup' Hfault' Hkey' HJ; congruence.
Qed.

(** The world after [GET /weather]: the store and its faults are as before,
    one read was sent, and the console has the announcement of the read,
    followed by the error when the read failed. *)
Lemma get_weather_world env w :
  let w' := (get_weather env w).2 in
  let line := u16 "Fetching weather from s3://" ++ S3_BUCKET_NAME env
              ++ u16 "/" ++ WEATHER_FILE_KEY in
  objects w' = objects w
  ∧ outage w' = outage w
  ∧ stream_fault w' = stream_fault w
  ∧ sent w' = GetObjectCommand (getObjectParams env) :: sent w
  ∧ ((∃ o J, outage w = None ∧ stream_fault w = None
              ∧ objects w !! (S3_BUCKET_NAME env, WEATHER_FILE_KEY) = Some o
              ∧ JSON_parse (Buffer_toString (content o)) = inl J)
       ∧ console w' = Log line :: console w
     ∨ ∃ e, weather_fails env w e
            ∧ console w'
              = LogError (u16 "S3 GetObject error:") e :: Log line :: console w).
Proof.
  destruct (weather_returns_or_fails env w)
    as [(o & J & Hup & Hf & Hkey & HJ) | [e He]].
  - intros w' line. subst w'. unfold get_weather.
    unfold mbind, Async_bind, console_log, try_catch.
    erewrite weather_try_returns; [|done..].
    cbn [snd objects outage stream_fault sent console logged recorded].
    split_and!; [done..|]. left. split; [by exists o, J | done].
  - intros w' line. subst w'. unfold get_weather.
    unfold mbind, Async_bind, console_log, console_error, try_catch.
    erewrite weather_try_throws; [|by apply weather_fails_logged].
    destruct (bool_decide (name e = u16 "NoSuchKey"));
      cbn [snd objects outage stream_fault sent console logged recorded
           res_status_json mret Async_ret];
      (split_and!; [done..|]; right; by exists e).
Qed.


(** X5. [GET /weather] is read-only and asks the store once: in every
    world, whatever the answer, the objects and the faults of the store are
    as before and exactly one command was sent, the read of the weather key
    in the configured bucket. *)
Theorem get_weather_read_only env w :
  objects (get_weather env w).2 = objects w
  ∧ outage (get_weather env w).2 = outage w
  ∧ stream_fault (get_weather env w).2 = stream_fault w
  ∧ sent (get_weather env w).2
    = GetObjectCommand {| Bucket := S3_BUCKET_NAME env;
                          Key := u16 "daily-data/prediction.json";
                          Body := JUndefined; ContentType := None |} :: sent w.
Proof.
  destruct (get_weather_world env w) as (Hobj & Hup & Hf & Hsent & _).
  by split_and!.
Qed.

(** X6. There is no cache and no state kept between requests: a second
    [GET /weather] reads the store again and, the store being as it was,
    answers what the first answered. *)
Theorem get_weather_repeatable env w :
  (get_weather env (get_weather env w).2).1 = (get_weather env w).1
  ∧ sent (get_weather env (get_weather env w).2).2
    = [GetObjectCommand (getObjectParams env);
       GetObjectCommand (getObjectParams env)] ++ sent w.
Proof.
  destruct (get_weather_world env w) as (Hobj & Hup & Hf & Hsent & _).
  split.
  - apply get_weather_response_ext; [done | done | by rewrite Hobj].
  - destruct (get_weather_world env (get_weather env w).2)
      as (_ & _ & _ & Hsent' & _).
    by rewrite Hsent', Hsent.
Qed.

(** X7. Every failed read is written to the console with its error, after
    the line that announced the read; nothing else is logged. *)
Theorem get_weather_logs_failure env w e :
  weather_fails env w e →
  console (get_weather env w).2
  = [LogError (u16 "S3 GetObject error:") e;
     Log (u16 "Fetching weather from s3://" ++ S3_BUCKET_NAME env
          ++ u16 "/daily-data/prediction.json")] ++ console w.
Proof.
  intros He.
  destruct (get_weather_world env w)
    as (_ & _ & _ & _ & [[(o & J & Hup & Hf & Hkey & HJ) _] | (e' & He' & Hlog)]).
  - destruct (weather_fails_not_returns env w e o J He Hup Hf Hkey HJ).
  - rewrite Hlog, (weather_fails_unique env w e e' He He'). done.
Qed.

End Reading.

(** ** More on sanitizing and on the configuration *)

Lemma sanitizedEmail_app (a b : jsstring) :
  sanitizedEmail (a ++ b) = sanitizedEmail a ++ sanitizedEmail b.
Proof. rewrite !sanitizedEmail_spec. apply filter_app. Qed.

Lemma sanitizedEmail_retained (e : jsstring) :
  Forall (λ c, retained c = true) (sanitizedEmail e).
Proof. apply Forall_forall. intros c Hc. by apply elem_of_sanitizedEmail in Hc as [_ ?]. Qed.

Lemma sanitizedEmail_clean (e : jsstring) :
  Forall (λ c, retained c = true) e → sanitizedEmail e = e.
Proof.
  rewrite sanitizedEmail_spec. unfold sanitize_spec.
  induction 1 as [|c e' Hc _ IH]; [done|].
  rewrite filter_cons_True; [|by apply Is_true_true]. by rewrite IH.
Qed.

Lemma sanitizedEmail_junk (junk : jsstring) :
  Forall (λ c, retained c = false) junk → sanitizedEmail junk = [].
Proof.
  rewrite sanitizedEmail_spec. unfold sanitize_spec.
  induction 1 as [|c e' Hc _ IH]; [done|].
  rewrite filter_cons_False; [done|]. intros Hr%Is_true_true. congruence.
Qed.

(** The retained units are printable ASCII between ['-'] and ['z']. *)
Lemma retained_bounds (c : N) :
  retained c = true → (45 ≤ c)%N ∧ (c ≤ 122)%N.
Proof.
  unfold retained.
  rewrite !orb_true_iff, !andb_true_iff, !N.leb_le, !N.eqb_eq. lia.
Qed.

(** X8. The name under ['subscribers/'] is safe to use as a key: it has
    only characters of [[A-Za-z0-9\-_.@]], so no ['/'] that would open a
    further level and nothing but printable ASCII (no blank, no control
    character), and it is never longer than the email it comes from. *)
Theorem sanitizedEmail_safe (e : jsstring) :
  Forall (λ c, retained c = true) (sanitizedEmail e)
  ∧ (code "/" ∉ sanitizedEmail e)
  ∧ (∀ c, c ∈ sanitizedEmail e → (32 < c)%N ∧ (c < 128)%N)
  ∧ length (sanitizedEmail e) ≤ length e.
Proof.
  split_and!.
  - apply sanitizedEmail_retained.
  - intros [_ Hslash]%elem_of_sanitizedEmail. by vm_compute in Hslash.
  - intros c [_ Hr%retained_bounds]%elem_of_sanitizedEmail. lia.
  - rewrite sanitizedEmail_spec. apply length_filter.
Qed.

(** X9. An email made only of characters of the class is its own name, and
    two such emails are stored under the same key only when they are the
    same email. *)
Theorem clean_emails_never_collide (e1 e2 : jsstring) :
  Forall (λ c, retained c = true) e1 →
  Forall (λ c, retained c = true) e2 →
  sanitizedEmail e1 = e1
  ∧ (SUBSCRIPTIONS_PATH ++ sanitizedEmail e1
     = SUBSCRIPTIONS_PATH ++ sanitizedEmail e2 → e1 = e2).
Proof.
  intros Hclean1 Hclean2. rewrite !sanitizedEmail_clean by done.
  split; [done|]. apply app_inv_head.
Qed.

(** X10. Characters outside the class do not count, wherever they stand:
    an email and the same email with such characters inserted get the same
    key. *)
Theorem sanitizedEmail_ignores_unsafe (a junk b : jsstring) :
  Forall (λ c, retained c = false) junk →
  sanitizedEmail (a ++ junk ++ b) = sanitizedEmail (a ++ b)
  ∧ SUBSCRIPTIONS_PATH ++ sanitizedEmail (a ++ junk ++ b)
    = SUBSCRIPTIONS_PATH ++ sanitizedEmail (a ++ b).
Proof.
  intros Hjunk.
  assert (sanitizedEmail (a ++ junk ++ b) = sanitizedEmail (a ++ b)) as Heq.
  { rewrite !sanitizedEmail_app. rewrite (sanitizedEmail_junk junk) by done.
    reflexivity. }
  by rewrite Heq.
Qed.

(** X11. The configuration never holds an empty value: the bucket and the
    region are non-empty strings and the port is the number 3000 or a
    non-empty string, whatever the environment; the client is created for
    the configured region. *)
Theorem config_never_empty (env : Env) :
  S3_BUCKET_NAME env ≠ []
  ∧ S3_REGION env ≠ []
  ∧ (PORT env = JNumber 3000 ∨ ∃ c v, PORT env = JString (c :: v))
  ∧ ToBoolean (PORT env) = true
  ∧ region (s3Client env) = S3_REGION env.
Proof.
  split_and!.
  - unfold S3_BUCKET_NAME, env_or. by destruct (env !! _) as [[|c v]|].
  - unfold S3_REGION, env_or. by destruct (env !! _) as [[|c v]|].
  - unfold PORT, js_or, process_env.
    destruct (env !! _) as [[|c v]|]; simpl; eauto.
  - unfold PORT, js_or, process_env.
    by destruct (env !! _) as [[|c v]|].
  - done.
Qed.

(** ** More on POST /subscribe *)

Section Subscribing.
Context `{Runtime}.
Implicit Types (env : Env) (w : World) (e : JSError) (email : jsstring).

(** The body [{ "email": email }] for a string [email]. *)
Local Abbreviation request email := (JObject [(u16 "email", JString email)]).

(** The write of [email], as the handler sends it. *)
Local Abbreviation write env email :=
  (PutObjectCommand
     (putObjectParams env (SUBSCRIPTIONS_PATH ++ sanitizedEmail email)
        (JString email))).

(** The object the store holds after the write of [email]. *)
Local Abbreviation record_of email :=
  {| chunks := [Buffer_from email]; content_type := Some (u16 "text/plain") |}.

(** The handler on an email that is not a string: falsy values and arrays
    without an ["@"] element are refused, every other value makes line 102
    or line 109 throw.  Nothing is logged or sent. *)
Lemma post_subscribe_non_string env (properties : list (jsstring * JSValue)) w :
  (∀ email, own_property properties (u16 "email") ≠ JString email) →
  post_subscribe env (JObject properties) w
  = (match own_property properties (u16 "email") with
     | JBool true | JObject _ =>
         Throw (TypeError "email.includes is not a function")
     | JNumber x =>
         if ToBoolean (JNumber x)
         then Throw (TypeError "email.includes is not a function")
         else Return {| status := 400;
                        body := message_body "Invalid email address provided." |}
     | JArray elements =>
         if Array_includes elements (u16 "@")
         then Throw (TypeError "email.replace is not a function")
         else Return {| status := 400;
                        body := message_body "Invalid email address provided." |}
     | JUndefined | JNull | JBool false | JString _ =>
         Return {| status := 400;
                   body := message_body "Invalid email address provided." |}
     end, w).
Proof.
  intros Hnot.
  destruct (own_property properties (u16 "email"))
    as [| |[]|x|email|elements|inner] eqn:Hemail;
    unfold post_subscribe, destructure_email; run_async; rewrite Hemail;
    unfold invalid_email; simpl; run_async; try done.
  - by destruct ((x =? 0)%float || is_nan x).
  - by destruct (Hnot email).
  - by destruct (Array_includes elements (u16 "@")).
Qed.

Lemma email_string_or_not (properties : list (jsstring * JSValue)) :
  (∃ email, own_property properties (u16 "email") = JString email)
  ∨ (∀ email, own_property properties (u16 "email") ≠ JString email).
Proof. destruct (own_property properties (u16 "email")); eauto. Qed.

Lemma post_subscribe_accepted env email w :
  code "@" ∈ email →
  outage w = None →
  post_subscribe env (request email) w
  = (Return {| status := 201; body := message_body "Subscription successful!" |},
     stored (S3_BUCKET_NAME env) (SUBSCRIPTIONS_PATH ++ sanitizedEmail email)
       (record_of email)
       (recorded (write env email)
          (logged (Log (u16 "Saving subscription to s3://" ++ S3_BUCKET_NAME env
                        ++ u16 "/" ++ SUBSCRIPTIONS_PATH ++ sanitizedEmail email))
             w))).
Proof.
  intros Hat Hup.
  rewrite (post_subscribe_string env [(u16 "email", JString email)] email w eq_refl).
  rewrite bool_decide_eq_true_2 by done. cbv zeta. by rewrite Hup.
Qed.

(** What [POST /subscribe] answers depends on the request and on whether
    the store takes the write, and on nothing else in the world. *)
Lemma post_subscribe_response_ext env (req_body : JSValue) w1 w2 :
  outage w1 = outage w2 →
  (post_subscribe env req_body w1).1 = (post_subscribe env req_body w2).1.
Proof.
  intros Hup.
  destruct req_body as [| |b|x|s|elements|properties]; try done.
  destruct (email_string_or_not properties) as [[email Hemail] | Hnot].
  - rewrite !(post_subscribe_string env properties email _ Hemail).
    destruct (bool_decide (code "@" ∈ email)); [|done].
    cbv zeta. rewrite <- Hup. by destruct (outage w1).
  - by rewrite !post_subscribe_non_string.
Qed.

(** X12. When the store rejects the write, [POST /subscribe] answers 500
    with the fixed message and the error's own message.  The write was
    attempted once and not retried, no object changed, and the error is on
    the console after the line that announced the key. *)
Theorem subscribe_store_failure_500 env (properties : list (jsstring * JSValue))
    email w e :
  own_property properties (u16 "email") = JString email →
  code "@" ∈ email →
  outage w = Some e →
  ∃ w',
    post_subscribe env (JObject properties) w
    = (Return {| status := 500;
                 body := JObject
                   [(u16 "message", JString (u16 "Failed to save subscription."));
                    (u16 "error", JString (message e))] |}, w')
    ∧ objects w' = objects w
    ∧ sent w' = write env email :: sent w
    ∧ console w'
      = [LogError (u16 "S3 PutObject error:") e;
         Log (u16 "Saving subscription to s3://" ++ S3_BUCKET_NAME env
              ++ u16 "/subscribers/" ++ sanitizedEmail email)] ++ console w.
Proof.
  intros Hemail Hat Hup.
  rewrite (post_subscribe_string env properties email w Hemail).
  rewrite bool_decide_eq_true_2 by done. cbv zeta. rewrite Hup.
  eexists. split; [done|]. by split_and!.
Qed.

(** X13. The requests on which the handler throws instead of answering are
    exactly these: no body at all ([undefined] or [null]), and an [email]
    that is [true], a number other than 0 and NaN, an object, or an array
    with an element ["@"].  On each of them the world is left as it was:
    nothing is logged, nothing is sent. *)
Theorem post_subscribe_throws_iff env (req_body : JSValue) w :
  ((∃ e, (post_subscribe env req_body w).1 = Throw e) ↔
   req_body = JUndefined ∨ req_body = JNull
   ∨ ∃ properties,
       req_body = JObject properties
       ∧ match own_property properties (u16 "email") with
         | JBool b => b = true
         | JNumber x => ToBoolean (JNumber x) = true
         | JObject _ => True
         | JArray elements => Array_includes elements (u16 "@") = true
         | JUndefined | JNull | JString _ => False
         end)
  ∧ (∀ e, (post_subscribe env req_body w).1 = Throw e →
          (post_subscribe env req_body w).2 = w).
Proof.
  assert (∀ (r : Completion Response),
            (∀ e, r ≠ Throw e) →
            ∀ P : Prop, ¬ P →
            ((∃ e, (r, w).1 = Throw e) ↔ P)
            ∧ (∀ e, (r, w).1 = Throw e → (r, w).2 = w)) as Hanswered.
  { intros r Hr P HP. split; [|done].
    split; [intros [e He]; by destruct (Hr e) | done]. }
  assert (∀ e (P : Prop), P →
            ((∃ e', (Throw (A:=Response) e, w).1 = Throw e') ↔ P)
            ∧ (∀ e', (Throw (A:=Response) e, w).1 = Throw e'
                     → (Throw (A:=Response) e, w).2 = w)) as Hthrown.
  { intros e P HP. split; [|done]. split; [done | by eexists]. }
  destruct req_body as [| |b|x|s|elements|properties].
  - apply Hthrown. by left.
  - apply Hthrown. by right; left.
  - apply Hanswered; [done..|]. intros [? | [? | (? & ? & ?)]]; done.
  - apply Hanswered; [done..|]. intros [? | [? | (? & ? & ?)]]; done.
  - apply Hanswered; [done..|]. intros [? | [? | (? & ? & ?)]]; done.
  - apply Hanswered; [done..|]. intros [? | [? | (? & ? & ?)]]; done.
  - destruct (email_string_or_not properties) as [[email Hemail] | Hnot].
    + rewrite (post_subscribe_string env properties email w Hemail).
      destruct (bool_decide (code "@" ∈ email)); cbv zeta.
      * assert (¬ (JObject properties = JUndefined ∨ JObject properties = JNull
                   ∨ ∃ ps, JObject properties = JObject ps
                           ∧ match own_property ps (u16 "email") with
                             | JBool b => b = true
                             | JNumber x => ToBoolean (JNumber x) = true
                             | JObject _ => True
                             | JArray elements =>
                                 Array_includes elements (u16 "@") = true
                             | JUndefined | JNull | JString _ => False
                             end)) as Hno.
        { intros [? | [? | (ps & [= <-] & Hcase)]]; try done.
          by rewrite Hemail in Hcase. }
        destruct (outage w).
        -- split; [|done]. split; [intros [? ?]; done | done].
        -- split; [|done]. split; [intros [? ?]; done | done].
      * apply Hanswered; [done..|].
        intros [? | [? | (ps & [= <-] & Hcase)]]; try done.
        by rewrite Hemail in Hcase.
    + rewrite post_subscribe_non_string by done.
      destruct (own_property properties (u16 "email"))
        as [| |[]|x|email|elements|inner] eqn:Hemail.
      * apply Hanswered; [done..|].
        intros [? | [? | (ps & [= <-] & Hcase)]]; try done.
        by rewrite Hemail in Hcase.
      * apply Hanswered; [done..|].
        intros [? | [? | (ps & [= <-] & Hcase)]]; try done.
        by rewrite Hemail in Hcase.
      * apply Hthrown. right; right. exists properties. by rewrite Hemail.
      * apply Hanswered; [done..|].
        intros [? | [? | (ps & [= <-] & Hcase)]]; try done.
        by rewrite Hemail in Hcase.
      * destruct (ToBoolean (JNumber x)) eqn:Htruthy.
        -- apply Hthrown. right; right. exists properties. by rewrite Hemail.
        -- apply Hanswered; [done..|].
           intros [? | [? | (ps & [= <-] & Hcase)]]; try done.
           rewrite Hemail in Hcase. congruence.
      * by destruct (Hnot email).
      * destruct (Array_includes elements (u16 "@")) eqn:Hincludes.
        -- apply Hthrown. right; right. exists properties. by rewrite Hemail.
        -- apply Hanswered; [done..|].
           intros [? | [? | (ps & [= <-] & Hcase)]]; try done.
           rewrite Hemail in Hcase. congruence.
      * apply Hthrown. right; right. exists properties. by rewrite Hemail.
Qed.

(** X14. Every falsy [email] is refused with 400, not only the missing
    and the empty one: [null], [false], [0] and NaN too; and so is an array
    without an element ["@"], and a body that is not an object and so has
    no [email].  The world is left as it was. *)
Theorem subscribe_refuses_falsy_email env (req_body email : JSValue) w :
  destructure_email req_body w = (Return email, w) →
  ToBoolean email = false
  ∨ (∃ elements, email = JArray elements
                 ∧ Array_includes elements (u16 "@") = false) →
  post_subscribe env req_body w
  = (Return {| status := 400;
               body := JObject [(u16 "message",
                                 JString (u16 "Invalid email address provided."))] |},
     w).
Proof.
  intros Hbody Hfalsy. unfold post_subscribe, mbind, Async_bind.
  rewrite Hbody. unfold invalid_email.
  destruct Hfalsy as [-> | (elements & -> & Hincludes)]; [done|].
  simpl. run_async. by rewrite Hincludes.
Qed.

(** X15. The two endpoints do not interfere: a subscription request,
    whatever its body and its outcome, does not change what [GET /weather]
    answers, and a weather request does not change what [POST /subscribe]
    answers. *)
Theorem endpoints_do_not_interfere env (req_body : JSValue) w :
  (get_weather env (post_subscribe env req_body w).2).1 = (get_weather env w).1
  ∧ (post_subscribe env req_body (get_weather env w).2).1
    = (post_subscribe env req_body w).1.
Proof.
  split.
  - destruct (subscribe_preserves_weather env req_body w (S3_BUCKET_NAME env))
      as (Hup & Hfault & Hkey).
    by apply get_weather_response_ext.
  - apply post_subscribe_response_ext.
    by destruct (get_weather_world env w) as (_ & -> & _).
Qed.

(** X16. There is no duplicate detection: the answer to a subscription
    does not depend on what the store holds, and the email that was just
    stored is accepted again with the same answer. *)
Theorem subscribe_answer_ignores_store env (req_body : JSValue) w1 w2 :
  outage w1 = outage w2 →
  (post_subscribe env req_body w1).1 = (post_subscribe env req_body w2).1
  ∧ (post_subscribe env req_body (post_subscribe env req_body w1).2).1
    = (post_subscribe env req_body w1).1.
Proof.
  intros Hup. split; [by apply post_subscribe_response_ext|].
  apply post_subscribe_response_ext.
  by destruct (subscribe_preserves_weather env req_body w1 []) as (-> & _).
Qed.

(** X17. Last write wins: when two emails have the same sanitized form
    and both writes are accepted, the second subscription replaces the
    record of the first.  The store ends as if only the second email had
    subscribed, and holds the second email at the shared key; subscribing
    the same email twice is the case of equal emails. *)
Theorem subscribe_last_write_wins env email1 email2 w :
  code "@" ∈ email1 →
  code "@" ∈ email2 →
  sanitizedEmail email1 = sanitizedEmail email2 →
  outage w = None →
  let w1 := (post_subscribe env (request email1) w).2 in
  let w2 := (post_subscribe env (request email2) w1).2 in
  (post_subscribe env (request email2) w1).1
  = Return {| status := 201; body := message_body "Subscription successful!" |}
  ∧ objects w2 = objects (post_subscribe env (request email2) w).2
  ∧ objects w2 !! (S3_BUCKET_NAME env, SUBSCRIPTIONS_PATH ++ sanitizedEmail email1)
    = Some (record_of email2)
  ∧ sent w2 = [write env email2; write env email1] ++ sent w.
Proof.
  intros Hat1 Hat2 Hsame Hup w1 w2. subst w1 w2.
  rewrite (post_subscribe_accepted env email1 w) by done.
  rewrite (post_subscribe_accepted env email2 w) by done.
  rewrite (post_subscribe_accepted env email2) by done.
  cbn [fst snd objects sent stored recorded logged]. rewrite Hsame.
  split_and!.
  - done.
  - apply insert_insert_eq.
  - apply lookup_insert_eq.
  - done.
Qed.

(** X18. Subscriptions under different keys are independent: when the
    sanitized forms differ, both records are in the store afterwards and
    the store is the same whichever request came first. *)
Theorem subscribe_different_keys_commute env email1 email2 w :
  code "@" ∈ email1 →
  code "@" ∈ email2 →
  sanitizedEmail email1 ≠ sanitizedEmail email2 →
  outage w = None →
  let after12 :=
    (post_subscribe env (request email2)
       (post_subscribe env (request email1) w).2).2 in
  let after21 :=
    (post_subscribe env (request email1)
       (post_subscribe env (request email2) w).2).2 in
  objects after12 = objects after21
  ∧ objects after12 !! (S3_BUCKET_NAME env, SUBSCRIPTIONS_PATH ++ sanitizedEmail email1)
    = Some (record_of email1)
  ∧ objects after12 !! (S3_BUCKET_NAME env, SUBSCRIPTIONS_PATH ++ sanitizedEmail email2)
    = Some (record_of email2).
Proof.
  intros Hat1 Hat2 Hdiff Hup after12 after21. subst after12 after21.
  assert ((S3_BUCKET_NAME env, SUBSCRIPTIONS_PATH ++ sanitizedEmail email1)
          ≠ (S3_BUCKET_NAME env, SUBSCRIPTIONS_PATH ++ sanitizedEmail email2))
    as Hkeys.
  { intros Heq. apply (f_equal snd) in Heq. cbn [snd] in Heq.
    by apply app_inv_head in Heq. }
  rewrite (post_subscribe_accepted env email1 w) by done.
  rewrite (post_subscribe_accepted env email2 w) by done.
  rewrite !post_subscribe_accepted by done.
  cbn [fst snd objects sent stored recorded logged].
  split_and!.
  - by apply insert_insert_ne.
  - rewrite lookup_insert_ne by done. apply lookup_insert_eq.
  - apply lookup_insert_eq.
Qed.

(** Reading an object that the store holds, with the stream helper. *)
Lemma read_stored (client : S3Client) (p : Params) (o : S3Object) w :
  outage w = None →
  objects w !! (Bucket p, Key p) = Some o →
  (s3Response ← send client (GetObjectCommand p);
   streamToString (response_Body s3Response)) w
  = (match stream_fault w with
     | Some e => Throw e
     | None => Return (Buffer_toString (content o))
     end, recorded (GetObjectCommand p) w).
Proof.
  intros Hup Hkey. unfold mbind, Async_bind, send.
  cbn [outage objects recorded]. rewrite Hup, Hkey.
  unfold streamToString. cbn [response_Body].
  by rewrite streamToString_download.
Qed.

(** X19. What a subscription stored can be read back with the server's own
    stream helper: a read of the subscriber's key, passed to
    [streamToString], resolves with the decoding of the bytes the email was
    encoded to. *)
Theorem subscription_reads_back env email w :
  code "@" ∈ email →
  outage w = None →
  stream_fault w = None →
  let w' := (post_subscribe env (request email) w).2 in
  let read := GetObjectCommand
                {| Bucket := S3_BUCKET_NAME env;
                   Key := SUBSCRIPTIONS_PATH ++ sanitizedEmail email;
                   Body := JUndefined; ContentType := None |} in
  (s3Response ← send (s3Client env) read;
   streamToString (response_Body s3Response)) w'
  = (Return (Buffer_toString (Buffer_from email)), recorded read w').
Proof.
  intros Hat Hup Hfault w' read. subst w' read.
  rewrite (post_subscribe_accepted env email w) by done. cbn [snd].
  erewrite read_stored; [|done|apply lookup_insert_eq].
  cbn [stream_fault stored recorded logged]. rewrite Hfault.
  unfold content, Buffer_concat. cbn [chunks concat]. by rewrite app_nil_r.
Qed.

End Subscribing.

(** ** The scenarios of the specification, run on the scenario runtime *)

Import Scenario.

(** Scenario 1: the stored prediction comes back with status 200. *)
Lemma weather_roundtrip_witness :
  ∃ w', @get_weather runtime ∅ with_prediction
        = (Return {| status := 200;
                     body := JObject [(u16 "weatherCode", JNumber 2)] |}, w')
        ∧ objects w' = objects with_prediction
        ∧ sent w' = GetObjectCommand (getObjectParams ∅) :: sent with_prediction.
Proof.
  apply (@weather_roundtrip runtime ∅ with_prediction prediction_object).
  - reflexivity.
  - reflexivity.
  - vm_compute. reflexivity.
  - vm_compute. reflexivity.
Defined.

(** Scenario 2: no weather object, status 404. *)
Lemma weather_missing_404_witness :
  ∃ w', @get_weather runtime ∅ (healthy ∅)
        = (Return {| status := 404;
                     body := JObject
                       [(u16 "message",
                         JString (u16 "Weather prediction file not found."))] |},
           w')
        ∧ objects w' = objects (healthy ∅)
        ∧ sent w' = GetObjectCommand (getObjectParams ∅) :: sent (healthy ∅).
Proof.
  apply (@weather_missing_404 runtime ∅ (healthy ∅)).
  - reflexivity.
  - vm_compute. reflexivity.
Defined.

(** Scenario 6 and malformed content: an unreachable store and a stored
    text that is not JSON both give status 500 with the error's message. *)
Lemma weather_failure_500_witness :
  (∃ w', @get_weather runtime ∅ unreachable
         = (Return {| status := 500;
                      body := JObject
                        [(u16 "message", JString (u16 "Failed to fetch weather data."));
                         (u16 "error", JString (u16 "connect ETIMEDOUT"))] |},
            w')
         ∧ objects w' = objects unreachable
         ∧ sent w' = GetObjectCommand (getObjectParams ∅) :: sent unreachable)
  ∧ (∃ w', @get_weather runtime ∅ with_garbage
           = (Return {| status := 500;
                        body := JObject
                          [(u16 "message", JString (u16 "Failed to fetch weather data."));
                           (u16 "error", JString (u16 "Unexpected token in JSON"))] |},
              w')
           ∧ objects w' = objects with_garbage
           ∧ sent w' = GetObjectCommand (getObjectParams ∅) :: sent with_garbage).
Proof.
  split.
  - apply (@weather_failure_500 runtime ∅ unreachable
             {| name := u16 "TimeoutError"; message := u16 "connect ETIMEDOUT" |}).
    + apply store_rejects. reflexivity.
    + vm_compute. discriminate.
  - apply (@weather_failure_500 runtime ∅ with_garbage
             {| name := u16 "SyntaxError";
                message := u16 "Unexpected token in JSON" |}).
    + apply (@content_malformed runtime ∅ with_garbage
               {| chunks := [encode_unit <$> u16 "not json"];
                  content_type := None |}).
      * reflexivity.
      * vm_compute. reflexivity.
      * reflexivity.
      * vm_compute. reflexivity.
    + vm_compute. discriminate.
Defined.

(** Scenario 5: ['weird!!@x.com'] is stored, unsanitized, under the
    sanitized key. *)
Lemma subscribe_valid_email_201_witness :
  ∃ w',
    @post_subscribe runtime ∅ (email_body (JString (u16 "weird!!@x.com"))) (healthy ∅)
    = (Return {| status := 201;
                 body := JObject [(u16 "message",
                                   JString (u16 "Subscription successful!"))] |},
       w')
    ∧ sent w'
      = PutObjectCommand
          {| Bucket := S3_BUCKET_NAME ∅;
             Key := u16 "subscribers/weird@x.com";
             Body := JString (u16 "weird!!@x.com");
             ContentType := Some (u16 "text/plain") |} :: sent (healthy ∅)
    ∧ objects w'
      = <[(u16 "daily-weather-output-mscac", u16 "subscribers/weird@x.com") :=
            {| chunks := [@Buffer_from runtime (u16 "weird!!@x.com")];
               content_type := Some (u16 "text/plain") |}]> (objects (healthy ∅)).
Proof.
  destruct (@subscribe_valid_email_201 runtime ∅
              [(u16 "email", JString (u16 "weird!!@x.com"))]
              (u16 "weird!!@x.com") (healthy ∅))
    as (w' & Hrun & Hsent & Hobjects).
  - reflexivity.
  - apply (bool_decide_unpack _). vm_compute. exact I.
  - reflexivity.
  - exists w'. split_and!.
    + exact Hrun.
    + exact Hsent.
    + exact Hobjects.
Defined.

(** Scenario 4: ['not-an-email'] is refused and nothing is written. *)
Lemma subscribe_invalid_email_400_witness :
  @post_subscribe runtime ∅ (email_body (JString (u16 "not-an-email"))) (healthy ∅)
  = (Return {| status := 400;
               body := JObject [(u16 "message",
                                 JString (u16 "Invalid email address provided."))] |},
     healthy ∅).
Proof.
  apply (@subscribe_invalid_email_400 runtime ∅
           [(u16 "email", JString (u16 "not-an-email"))] (healthy ∅)).
  right; right. exists (u16 "not-an-email"). split.
  - reflexivity.
  - apply (bool_decide_unpack _). vm_compute. exact I.
Defined.

(** The email ["@"] passes validation and is written to ['subscribers/@']. *)
Lemma validation_only_tests_at_sign_witness :
  @invalid_email (JString (u16 "@")) (healthy ∅) = (Return false, healthy ∅)
  ∧ ∃ w', @post_subscribe runtime ∅ (email_body (JString (u16 "@"))) (healthy ∅)
          = (Return {| status := 201;
                       body := message_body "Subscription successful!" |}, w')
          ∧ sent w'
            = PutObjectCommand
                {| Bucket := S3_BUCKET_NAME ∅; Key := u16 "subscribers/@";
                   Body := JString (u16 "@");
                   ContentType := Some (u16 "text/plain") |} :: sent (healthy ∅).
Proof.
  destruct (@validation_only_tests_at_sign runtime ∅ (u16 "@") (healthy ∅))
    as (Hvalid & _ & Hwritten).
  split.
  - rewrite Hvalid. vm_compute. reflexivity.
  - apply Hwritten. reflexivity.
Defined.

(** The key of scenario 3, ['subscribers/a@b.com']. *)
Lemma subscribe_key_extends_prefix_witness :
  code "@" ∈ sanitizedEmail (u16 "a@b.com")
  ∧ sanitizedEmail (u16 "a@b.com") ≠ [].
Proof.
  destruct (@subscribe_key_extends_prefix runtime ∅
              (email_body (JString (u16 "a@b.com"))) (healthy ∅))
    as (Hkeeps & _ & _).
  apply Hkeeps. apply (bool_decide_unpack _). vm_compute. exact I.
Defined.

(** Scenario 3: after ['a@b.com'] subscribes, the store holds the email
    at ['subscribers/a@b.com']. *)
Example scenario_subscribe :
  objects (@post_subscribe runtime ∅ (email_body (JString (u16 "a@b.com")))
             (healthy ∅)).2
  !! (u16 "daily-weather-output-mscac", u16 "subscribers/a@b.com")
  = Some (subscriber "a@b.com").
Proof. vm_compute. reflexivity. Qed.

(** Scenario 5: the key is sanitized, the content is not. *)
Example scenario_sanitized_key :
  objects (@post_subscribe runtime ∅ (email_body (JString (u16 "weird!!@x.com")))
             (healthy ∅)).2
  !! (u16 "daily-weather-output-mscac", u16 "subscribers/weird@x.com")
  = Some (subscriber "weird!!@x.com").
Proof. vm_compute. reflexivity. Qed.

(** A request without a body object: [req.body] is [undefined] and the
    destructuring of line 100 throws. *)
Example subscribe_without_body (w : World) :
  @post_subscribe runtime ∅ JUndefined w
  = (Throw (TypeError "Cannot destructure property 'email' of 'req.body' as it is undefined."),
     w).
Proof. reflexivity. Qed.

(** An array that contains ["@"] passes line 102 and fails at [replace]. *)
Example subscribe_array_email (w : World) :
  @post_subscribe runtime ∅ (email_body (JArray [JString (u16 "@")])) w
  = (Throw (TypeError "email.replace is not a function"), w).
Proof. reflexivity. Qed.

(** ** The further properties, run on the scenario runtime *)

(** The prediction in two chunks and in one. *)
Lemma streamToString_any_chunking_witness :
  @streamToString runtime
    (Some ((data <$> chunks prediction_object) ++ end_ :: [])) (healthy ∅)
  = (Return (@Buffer_toString runtime (Buffer_concat (chunks prediction_object))),
     healthy ∅)
  ∧ @streamToString runtime
      (Some ((data <$> [encode_unit <$> prediction]) ++ end_ :: [data []]))
      (healthy ∅)
    = @streamToString runtime
        (Some ((data <$> chunks prediction_object) ++ end_ :: [])) (healthy ∅).
Proof.
  apply (@streamToString_any_chunking runtime (chunks prediction_object)
           [encode_unit <$> prediction] [] [data []] (healthy ∅)).
  vm_compute. reflexivity.
Defined.


(** The unreachable store: the timeout is on the console. *)
Lemma get_weather_logs_failure_witness :
  console (@get_weather runtime ∅ unreachable).2
  = [LogError (u16 "S3 GetObject error:")
       {| name := u16 "TimeoutError"; message := u16 "connect ETIMEDOUT" |};
     Log (u16 "Fetching weather from s3://" ++ S3_BUCKET_NAME ∅
          ++ u16 "/daily-data/prediction.json")] ++ console unreachable.
Proof.
  apply (@get_weather_logs_failure runtime ∅ unreachable).
  apply store_rejects. reflexivity.
Defined.

Lemma clean_emails_never_collide_witness :
  sanitizedEmail (u16 "a@b.com") = u16 "a@b.com"
  ∧ (SUBSCRIPTIONS_PATH ++ sanitizedEmail (u16 "a@b.com")
     = SUBSCRIPTIONS_PATH ++ sanitizedEmail (u16 "a@b.co")
     → u16 "a@b.com" = u16 "a@b.co").
Proof.
  apply (clean_emails_never_collide (u16 "a@b.com") (u16 "a@b.co")).
  - apply (bool_decide_unpack _). vm_compute. exact I.
  - apply (bool_decide_unpack _). vm_compute. exact I.
Defined.

(** ['weird!!@x.com'] and ['weird@x.com'] share a key. *)
Lemma sanitizedEmail_ignores_unsafe_witness :
  sanitizedEmail (u16 "weird" ++ u16 "!!" ++ u16 "@x.com")
  = sanitizedEmail (u16 "weird" ++ u16 "@x.com")
  ∧ SUBSCRIPTIONS_PATH ++ sanitizedEmail (u16 "weird" ++ u16 "!!" ++ u16 "@x.com")
    = SUBSCRIPTIONS_PATH ++ sanitizedEmail (u16 "weird" ++ u16 "@x.com").
Proof.
  apply (sanitizedEmail_ignores_unsafe (u16 "weird") (u16 "!!") (u16 "@x.com")).
  apply (bool_decide_unpack _). vm_compute. exact I.
Defined.

(** A subscription while the store is unreachable. *)
Lemma subscribe_store_failure_500_witness :
  ∃ w',
    @post_subscribe runtime ∅ (email_body (JString (u16 "a@b.com"))) unreachable
    = (Return {| status := 500;
                 body := JObject
                   [(u16 "message", JString (u16 "Failed to save subscription."));
                    (u16 "error", JString (u16 "connect ETIMEDOUT"))] |}, w')
    ∧ objects w' = objects unreachable
    ∧ sent w'
      = PutObjectCommand
          (putObjectParams ∅ (SUBSCRIPTIONS_PATH ++ sanitizedEmail (u16 "a@b.com"))
             (JString (u16 "a@b.com"))) :: sent unreachable
    ∧ console w'
      = [LogError (u16 "S3 PutObject error:")
           {| name := u16 "TimeoutError"; message := u16 "connect ETIMEDOUT" |};
         Log (u16 "Saving subscription to s3://" ++ S3_BUCKET_NAME ∅
              ++ u16 "/subscribers/" ++ sanitizedEmail (u16 "a@b.com"))]
        ++ console unreachable.
Proof.
  apply (@subscribe_store_failure_500 runtime ∅
           [(u16 "email", JString (u16 "a@b.com"))] (u16 "a@b.com") unreachable
           {| name := u16 "TimeoutError"; message := u16 "connect ETIMEDOUT" |}).
  - reflexivity.
  - apply (bool_decide_unpack _). vm_compute. exact I.
  - reflexivity.
Defined.

(** The email [0] is refused. *)
Lemma subscribe_refuses_falsy_email_witness :
  @post_subscribe runtime ∅ (email_body (JNumber 0)) (healthy ∅)
  = (Return {| status := 400;
               body := JObject [(u16 "message",
                                 JString (u16 "Invalid email address provided."))] |},
     healthy ∅).
Proof.
  apply (@subscribe_refuses_falsy_email runtime ∅ (email_body (JNumber 0))
           (JNumber 0) (healthy ∅)).
  - reflexivity.
  - left. reflexivity.
Defined.

(** The same answer on an empty store and on one that holds the
    prediction. *)
Lemma subscribe_answer_ignores_store_witness :
  (@post_subscribe runtime ∅ (email_body (JString (u16 "a@b.com"))) (healthy ∅)).1
  = (@post_subscribe runtime ∅ (email_body (JString (u16 "a@b.com")))
       with_prediction).1
  ∧ (@post_subscribe runtime ∅ (email_body (JString (u16 "a@b.com")))
       (@post_subscribe runtime ∅ (email_body (JString (u16 "a@b.com")))
          (healthy ∅)).2).1
    = (@post_subscribe runtime ∅ (email_body (JString (u16 "a@b.com")))
         (healthy ∅)).1.
Proof.
  apply (@subscribe_answer_ignores_store runtime ∅
           (email_body (JString (u16 "a@b.com"))) (healthy ∅) with_prediction).
  reflexivity.
Defined.

(** ['a!@b.com'] then ['a@b.com']: the second replaces the first. *)
Lemma subscribe_last_write_wins_witness :
  objects
    (@post_subscribe runtime ∅ (email_body (JString (u16 "a@b.com")))
       (@post_subscribe runtime ∅ (email_body (JString (u16 "a!@b.com")))
          (healthy ∅)).2).2
  !! (S3_BUCKET_NAME ∅, SUBSCRIPTIONS_PATH ++ sanitizedEmail (u16 "a!@b.com"))
  = Some {| chunks := [@Buffer_from runtime (u16 "a@b.com")];
            content_type := Some (u16 "text/plain") |}.
Proof.
  apply (@subscribe_last_write_wins runtime ∅ (u16 "a!@b.com") (u16 "a@b.com")
           (healthy ∅)).
  - apply (bool_decide_unpack _). vm_compute. exact I.
  - apply (bool_decide_unpack _). vm_compute. exact I.
  - vm_compute. reflexivity.
  - reflexivity.
Defined.

(** ['a@b.com'] and ['c@d.org'] in either order. *)
Lemma subscribe_different_keys_commute_witness :
  objects
    (@post_subscribe runtime ∅ (email_body (JString (u16 "c@d.org")))
       (@post_subscribe runtime ∅ (email_body (JString (u16 "a@b.com")))
          (healthy ∅)).2).2
  = objects
      (@post_subscribe runtime ∅ (email_body (JString (u16 "a@b.com")))
         (@post_subscribe runtime ∅ (email_body (JString (u16 "c@d.org")))
            (healthy ∅)).2).2.
Proof.
  apply (@subscribe_different_keys_commute runtime ∅ (u16 "a@b.com")
           (u16 "c@d.org") (healthy ∅)).
  - apply (bool_decide_unpack _). vm_compute. exact I.
  - apply (bool_decide_unpack _). vm_compute. exact I.
  - vm_compute. discriminate.
  - reflexivity.
Defined.

(** ['a@b.com'] is read back as it was sent. *)
Lemma subscription_reads_back_witness :
  (@mbind Async _ _ _
     (λ s3Response, @streamToString runtime (response_Body s3Response))
     (@send runtime (s3Client ∅)
        (GetObjectCommand
           {| Bucket := S3_BUCKET_NAME ∅;
              Key := SUBSCRIPTIONS_PATH ++ sanitizedEmail (u16 "a@b.com");
              Body := JUndefined; ContentType := None |})))
    (@post_subscribe runtime ∅ (email_body (JString (u16 "a@b.com")))
       (healthy ∅)).2
  = (Return (u16 "a@b.com"),
     recorded
       (GetObjectCommand
          {| Bucket := S3_BUCKET_NAME ∅;
             Key := SUBSCRIPTIONS_PATH ++ sanitizedEmail (u16 "a@b.com");
             Body := JUndefined; ContentType := None |})
       (@post_subscribe runtime ∅ (email_body (JString (u16 "a@b.com")))
          (healthy ∅)).2).
Proof.
  apply (@subscription_reads_back runtime ∅ (u16 "a@b.com") (healthy ∅)).
  - apply (bool_decide_unpack _). vm_compute. exact I.
  - reflexivity.
  - reflexivity.
Defined.
